(** * Kualitee: record reconciliation, batching and evaluation orchestration

    Shallow embedding of the core of the Kualitee application:
    - [validateAndMergeData] of [src/app/page.tsx] (the record matcher),
    - the bulk evaluation loop [runEvaluation] of [src/app/page.tsx] and its
      project-less variant in [src/unnamed/part_003],
    - the [POST] handler of [src/app/api/evaluate/route.ts],
    - the averaging of [src/app/api/generate-summary/route.ts] and of
      [summaryStats] in [src/components/ResultsDisplay.tsx],
    - the classifiers [getStatusText] (ResultsDisplay) and
      [getExplanationForScore] ([src/unnamed/part_006]),
    - the store action [updateEvaluationResult] of [src/lib/store.ts]. *)

From Stdlib Require Import List String Ascii ZArith QArith Qround Bool Lia Lqa.
Import ListNotations.
Open Scope string_scope.

(** ** Data model ([src/lib/types.ts]) *)

(** A JavaScript cell value of a [DataRow]: a string, a number, [null] or
    [undefined]. Numbers are modelled by integers. *)
Inductive Cell : Type :=
| CStr (s : string)
| CNum (z : Z)
| CNull
| CUndef.

Definition cell_eqb (a b : Cell) : bool :=
  match a, b with
  | CStr x, CStr y => String.eqb x y
  | CNum x, CNum y => Z.eqb x y
  | CNull, CNull => true
  | CUndef, CUndef => true
  | _, _ => false
  end.

(** A [DataRow]: an object, as the list of its own entries in insertion
    order. *)
Definition DataRow := list (string * Cell).

(** [key in row] *)
Definition has_prop (k : string) (row : DataRow) : bool :=
  existsb (fun e => String.eqb (fst e) k) row.

(** [row[key]]; an absent property reads as [undefined]. *)
Fixpoint get_prop (k : string) (row : DataRow) : Cell :=
  match row with
  | [] => CUndef
  | (k', v) :: rest => if String.eqb k' k then v else get_prop k rest
  end.

Definition MSID (row : DataRow) : Cell := get_prop "MSID" row.

(** Decimal digits of a natural number (JavaScript [String(n)]). *)
Fixpoint digits_of (fuel : nat) (n : N) (acc : string) : string :=
  match fuel with
  | O => acc
  | S f =>
      let d := String (Ascii.ascii_of_N (48 + N.modulo n 10)) EmptyString in
      if N.ltb n 10 then d ++ acc else digits_of f (N.div n 10) (d ++ acc)
  end.

Definition string_of_Z (z : Z) : string :=
  let body := digits_of (S (Z.to_nat (Z.log2 (Z.abs z)))) (Z.abs_N z) "" in
  if Z.ltb z 0 then "-" ++ body else body.

(** Template-literal rendering [`${v}`] of a cell. *)
Definition render_cell (c : Cell) : string :=
  match c with
  | CStr s => s
  | CNum z => string_of_Z z
  | CNull => "null"
  | CUndef => "undefined"
  end.

Record Joined : Type := mkJoined { source : DataRow; target : DataRow }.

Inductive ValidationErrorType : Type :=
| MISSING_MSID_COLUMN
| MSID_PARITY_ERROR
| DATA_MISMATCH.

Record ValidationError : Type := mkValidationError {
  vtype : ValidationErrorType;
  message : string;
  details : option (list string)
}.

Inductive Phase : Type := UPLOAD | KPI_CONFIG | EVALUATING | RESULTS | ERROR.

Record KPI : Type := mkKPI {
  kpi_id : Z;
  kpi_name : string;
  kpi_description : string;
  kpi_shortName : string
}.

Record ScoreEntry : Type := mkScoreEntry {
  kpiId : Z;
  score : Q;
  explanation : string
}.

Record EvaluationResult : Type := mkEvaluationResult {
  msid : Cell;
  scores : list ScoreEntry
}.

(** The part of the zustand store ([src/lib/store.ts]) the core reads and
    writes. *)
Record Store : Type := mkStore {
  mergedData : option (list Joined);
  evaluationResults : option (list EvaluationResult);
  currentPhase : Phase;
  validationError : option ValidationError;
  dataMismatchLog : list (Cell * string)
}.

Definition setMergedData (d : list Joined) (s : Store) : Store :=
  mkStore (Some d) (evaluationResults s) (currentPhase s) (validationError s)
    (dataMismatchLog s).
Definition setEvaluationResults (r : list EvaluationResult) (s : Store) : Store :=
  mkStore (mergedData s) (Some r) (currentPhase s) (validationError s)
    (dataMismatchLog s).
Definition setPhase (p : Phase) (s : Store) : Store :=
  mkStore (mergedData s) (evaluationResults s) p (validationError s)
    (dataMismatchLog s).
Definition setValidationError (e : option ValidationError) (s : Store) : Store :=
  mkStore (mergedData s) (evaluationResults s) (currentPhase s) e
    (dataMismatchLog s).
Definition addDataMismatch (m : Cell) (field : string) (s : Store) : Store :=
  mkStore (mergedData s) (evaluationResults s) (currentPhase s)
    (validationError s) (app (dataMismatchLog s) [(m, field)]).

(** ** JavaScript [Set] and [Map] *)

(** [set.has(x)] *)
Definition set_has (s : list Cell) (x : Cell) : bool := existsb (cell_eqb x) s.

(** [new Set(xs)], iterated in insertion order (first occurrence). *)
Definition new_Set (xs : list Cell) : list Cell :=
  fold_left (fun s x => if set_has s x then s else app s [x]) xs [].

(** [new Map(entries).get(k)]: a later entry with the same key overwrites the
    value of an earlier one. *)
Definition map_get {A : Type} (entries : list (Cell * A)) (k : Cell) : option A :=
  fold_left (fun acc e => if cell_eqb (fst e) k then Some (snd e) else acc)
    entries None.

(** ** RecordMatcher: [validateAndMergeData] ([src/app/page.tsx], 45-114) *)

Definition hasMSID (data : list DataRow) : bool :=
  match data with
  | [] => false
  | r :: _ => has_prop "MSID" r
  end.

Definition missing_msg (sourceHasMSID : bool) : string :=
  "MSID column not found in " ++
  (if negb sourceHasMSID then "SOURCE_INPUT" else "TARGET_OUTPUT") ++ " file.".

Definition parity_msg : string :=
  "MSID parity check failed. Records exist in one file but not the other.".

Definition is_empty_cell (v : Cell) : bool :=
  match v with
  | CStr s => String.eqb s ""
  | CNull | CUndef => true
  | CNum _ => false
  end.

(** [Object.entries(row).forEach(...)] with [addDataMismatch] on empty
    values. *)
Definition check_empty (side : string) (row : DataRow) (s : Store) : Store :=
  fold_left (fun s e => if is_empty_cell (snd e)
                        then addDataMismatch (MSID row) (side ++ "." ++ fst e) s
                        else s) row s.

(** [targetData.forEach(...)]: the merge loop, threading the merged list and
    the store. *)
Definition merge_step (sourceMap : list (Cell * DataRow))
  (acc : list Joined * Store) (targetRow : DataRow) : list Joined * Store :=
  let '(merged, s) := acc in
  match map_get sourceMap (MSID targetRow) with
  | Some sourceRow =>
      (app merged [mkJoined sourceRow targetRow],
       check_empty "TARGET" targetRow (check_empty "SOURCE" sourceRow s))
  | None => (merged, s)
  end.

Definition validateAndMergeData (sourceData targetData : option (list DataRow))
  (s : Store) : Store :=
  match sourceData, targetData with
  | Some sourceData, Some targetData =>
    let sourceHasMSID := hasMSID sourceData in
    let targetHasMSID := hasMSID targetData in
    if negb sourceHasMSID || negb targetHasMSID then
      setPhase ERROR
        (setValidationError
           (Some (mkValidationError MISSING_MSID_COLUMN
                    (missing_msg sourceHasMSID) None)) s)
    else
      let sourceMSIDs := new_Set (map MSID sourceData) in
      let targetMSIDs := new_Set (map MSID targetData) in
      let missingInTarget := filter (fun id => negb (set_has targetMSIDs id)) sourceMSIDs in
      let missingInSource := filter (fun id => negb (set_has sourceMSIDs id)) targetMSIDs in
      if (Nat.ltb 0 (List.length missingInTarget)) || (Nat.ltb 0 (List.length missingInSource)) then
        setPhase ERROR
          (setValidationError
             (Some (mkValidationError MSID_PARITY_ERROR parity_msg
                (Some (app (map (fun id => "MSID " ++ render_cell id ++ ": Missing in TARGET_OUTPUT")
                           missingInTarget)
                       (map (fun id => "MSID " ++ render_cell id ++ ": Missing in SOURCE_INPUT")
                           missingInSource))))) s)
      else
        let sourceMap := map (fun row => (MSID row, row)) sourceData in
        let '(merged, s') := fold_left (merge_step sourceMap) targetData ([], s) in
        setPhase KPI_CONFIG (setMergedData merged s')
  | _, _ => s
  end.

Definition emptyStore : Store := mkStore None None UPLOAD None [].


(** ** Random numbers: [Math.random()] as a supply threaded through a state
    monad; the state counts the draws made so far. *)

Definition RandM (A : Type) : Type := nat -> A * nat.

Definition rret {A : Type} (a : A) : RandM A := fun n => (a, n).

Definition rbind {A B : Type} (m : RandM A) (k : A -> RandM B) : RandM B :=
  fun n => let '(a, n') := m n in k a n'.

Notation "x <-- m ;; k" := (rbind m (fun x => k))
  (at level 61, m at next level, right associativity).

Definition math_random (random : nat -> Q) : RandM Q :=
  fun n => (random n, S n).

Fixpoint rmap {A B : Type} (f : A -> RandM B) (l : list A) : RandM (list B) :=
  match l with
  | [] => rret []
  | x :: xs => y <-- f x ;; ys <-- rmap f xs ;; rret (y :: ys)
  end.

(** ** Demo mode of [src/app/api/evaluate/route.ts] ([generateDemoScores]) *)

(** [explanations: Record<number, string[]>]; other keys read as
    [undefined]. *)
Definition explanations (k : Z) : option (list string) :=
  match k with
  | 5%Z => Some ["Excellent quality output"; "Meets all criteria optimally"; "Outstanding performance"]
  | 4%Z => Some ["Good quality with minor issues"; "Solid performance overall"; "Above average output"]
  | 3%Z => Some ["Acceptable but needs improvement"; "Meets basic requirements"; "Average quality"]
  | 2%Z => Some ["Below expectations"; "Multiple issues detected"; "Needs significant work"]
  | 1%Z => Some ["Critical failure detected"; "Does not meet requirements"; "Major quality issues"]
  | _ => None
  end.

(** [a < b] on numbers. *)
Definition Qlt_bool (a b : Q) : bool := negb (Qle_bool b a).

Definition weights : list Q := [5#100; 15#100; 35#100; 30#100; 15#100].

(** The [for] loop over [weights]: [score] starts at 3 and becomes [i + 1]
    at the first [i] with [random < cumulative]. *)
Fixpoint pick_score (ws : list Q) (i : nat) (cumulative : Q) (random : Q) (score : Z) : Z :=
  match ws with
  | [] => score
  | w :: ws' =>
      let cumulative' := cumulative + w in
      if Qlt_bool random cumulative' then Z.of_nat i + 1
      else pick_score ws' (S i) cumulative' random score
  end.

(** One KPI of [kpis.map(...)]. [None] stands for the cases where
    [explanations[score]] or [expArray[...]] is [undefined]. *)
Definition demo_entry (random : nat -> Q) (kpi : KPI) : RandM (option ScoreEntry) :=
  r <-- math_random random ;;
  let score := pick_score weights 0 0 r 3 in
  r2 <-- math_random random ;;
  rret (match explanations score with
        | Some expArray =>
            match nth_error expArray
                    (Z.to_nat (Qfloor (r2 * inject_Z (Z.of_nat (List.length expArray))))) with
            | Some explanation => Some (mkScoreEntry (kpi_id kpi) (inject_Z score) explanation)
            | None => None
            end
        | None => None
        end).

Fixpoint all_some {A : Type} (l : list (option A)) : option (list A) :=
  match l with
  | [] => Some []
  | None :: _ => None
  | Some x :: xs => match all_some xs with Some ys => Some (x :: ys) | None => None end
  end.

Definition generateDemoScores (random : nat -> Q) (kpis : list KPI) : RandM (option (list ScoreEntry)) :=
  es <-- rmap (demo_entry random) kpis ;; rret (all_some es).

(** ** Live mode of [src/app/api/evaluate/route.ts] *)

(** A content block of the model's answer. *)
Inductive ContentBlock : Type :=
| TextBlock (text : string)
| OtherBlock.

(** What [anthropic.messages.create] does for one record: [None] when the
    call rejects, [Some content] otherwise. The call is nondeterministic, so
    the handler receives one outcome per position of the batch. *)
Definition CreateOutcome : Type := option (list ContentBlock).

(** [message.content[0].type === 'text' ? message.content[0].text : '']; an
    empty [content] makes the property read throw ([None]). *)
Definition responseText (content : list ContentBlock) : option string :=
  match content with
  | [] => None
  | TextBlock t :: _ => Some t
  | OtherBlock :: _ => Some ""
  end.

Fixpoint index_of (c : ascii) (s : string) (i : nat) : option nat :=
  match s with
  | EmptyString => None
  | String c' s' => if Ascii.eqb c c' then Some i else index_of c s' (S i)
  end.

Fixpoint last_index_of (c : ascii) (s : string) (i : nat) : option nat :=
  match s with
  | EmptyString => None
  | String c' s' =>
      match last_index_of c s' (S i) with
      | Some j => Some j
      | None => if Ascii.eqb c c' then Some i else None
      end
  end.

(** [responseText.match(/\{[\s\S]*\}/)]: the leftmost match starts at the
    first ["{"] and, being greedy, ends at the last ["}"] after it. *)
Definition json_match (s : string) : option string :=
  match index_of "{"%char s 0, last_index_of "}"%char s 0 with
  | Some i, Some j => if Nat.ltb i j then Some (substring i (j - i + 1) s) else None
  | _, _ => None
  end.

Definition fallback (m : Cell) (kpis : list KPI) : EvaluationResult :=
  mkEvaluationResult m
    (map (fun kpi => mkScoreEntry (kpi_id kpi) 0 "Evaluation failed") kpis).

Record EvaluationBatchRequest : Type := mkRequest {
  batch : list Joined;
  kpis : list KPI
}.

Inductive Response : Type :=
| Json200 (results : list EvaluationResult)
| Error500.

Fixpoint mapi_from {A B : Type} (f : nat -> A -> B) (i : nat) (l : list A) : list B :=
  match l with
  | [] => []
  | x :: xs => f i x :: mapi_from f (S i) xs
  end.

Section EvaluateRoute.

(** [JSON.parse] followed by the [.scores] projection; [None] when
    [JSON.parse] throws. *)
Variable JSON_parse : string -> option (list ScoreEntry).

(** The body of the [try] block for one record: [None] when it throws. *)
Definition parse_response (out : CreateOutcome) : option (list ScoreEntry) :=
  match out with
  | None => None
  | Some content =>
      match responseText content with
      | None => None
      | Some text =>
          match json_match text with
          | None => None
          | Some m => JSON_parse m
          end
      end
  end.

(** [batch.map(async ({ source, target }) => ...)] for one record, with its
    [catch] returning the all-zero result. *)
Definition evaluate_record (kpis : list KPI) (rec : Joined) (out : CreateOutcome)
  : EvaluationResult :=
  let m := MSID (source rec) in
  match parse_response out with
  | Some sc => mkEvaluationResult m sc
  | None => fallback m kpis
  end.

(** [POST]: [body] is [None] when [request.json()] throws; [apiKeySet] is
    [!!process.env.ANTHROPIC_API_KEY]; [create i] is the outcome of the call
    made for the record at position [i]; [Promise.all] keeps positions. *)
Definition POST (apiKeySet : bool) (random : nat -> Q) (create : nat -> CreateOutcome)
  (body : option EvaluationBatchRequest) : Response :=
  match body with
  | None => Error500
  | Some req =>
      if negb apiKeySet then
        let demo := fst (rmap (fun j => sc <-- generateDemoScores random (kpis req) ;;
                                         rret (match sc with
                                               | Some sc => Some (mkEvaluationResult (MSID (source j)) sc)
                                               | None => None
                                               end)) (batch req) 0%nat) in
        match all_some demo with
        | Some results => Json200 results
        | None => Error500
        end
      else
        Json200 (mapi_from (fun i rec => evaluate_record (kpis req) rec (create i)) 0 (batch req))
  end.

End EvaluateRoute.

(** ** BatchPlanner and the bulk run [runEvaluation] *)

Definition BATCH_SIZE : nat := 20.

(** [mergedData.slice(i, i + BATCH_SIZE)] *)
Definition slice {A : Type} (i j : nat) (l : list A) : list A :=
  firstn (j - i) (skipn i l).

(** [for (let i = 0; i < mergedData.length; i += BATCH_SIZE)
       batches.push(mergedData.slice(i, i + BATCH_SIZE))],
    with [fuel] bounding the number of iterations. *)
Fixpoint batches_from {A : Type} (fuel i : nat) (l : list A) : list (list A) :=
  match fuel with
  | O => []
  | S f =>
      if Nat.ltb i (List.length l)
      then slice i (i + BATCH_SIZE) l :: batches_from f (i + BATCH_SIZE) l
      else []
  end.

Definition make_batches {A : Type} (l : list A) : list (list A) :=
  batches_from (List.length l) 0 l.

(** What [await fetch('/api/evaluate', ...)] yields for one batch: the call
    throws, or a response with its [ok] flag and [data.results] ([None] when
    [response.json()] throws or [results] is not an array). *)
Inductive FetchResult : Type :=
| FetchThrows
| FetchResponse (ok : bool) (results : option (list EvaluationResult)).

(** One iteration of the batch loop of [src/app/page.tsx] (146-169): a
    failed call is caught, logged and skipped. *)
Definition page_batch_step (r : FetchResult) (allResults : list EvaluationResult)
  : list EvaluationResult :=
  match r with
  | FetchThrows => allResults
  | FetchResponse ok data =>
      if negb ok then allResults
      else match data with
           | Some results => app allResults results
           | None => allResults
           end
  end.

(** One iteration of the batch loop of [src/unnamed/part_003] (225-250). *)
Definition part003_batch_step (r : FetchResult) (allResults : list EvaluationResult)
  : list EvaluationResult :=
  match r with
  | FetchThrows => allResults
  | FetchResponse ok data =>
      match data with
      | None => allResults
      | Some results =>
          if negb ok then allResults
          else if Nat.ltb 0 (List.length results) then app allResults results
          else allResults
      end
  end.

(** The sequential loop over the batches; [fetch i b] is the outcome of the
    call for batch number [i]. *)
Fixpoint process_batches (step : FetchResult -> list EvaluationResult -> list EvaluationResult)
  (fetch : nat -> list Joined -> FetchResult) (i : nat) (batches : list (list Joined))
  (allResults : list EvaluationResult) : list EvaluationResult :=
  match batches with
  | [] => allResults
  | b :: rest => process_batches step fetch (S i) rest (step (fetch i b) allResults)
  end.

(** [runEvaluation] of [src/app/page.tsx] (128-198), on the store; the
    summary request after the loop only sets [evaluationSummary], which is
    not part of [Store]. *)
Definition runEvaluation (fetch : nat -> list Joined -> FetchResult) (s : Store) : Store :=
  match mergedData s with
  | None | Some [] => s
  | Some md =>
      let s1 := setPhase EVALUATING s in
      let allResults := process_batches page_batch_step fetch 0 (make_batches md) [] in
      let s2 := setEvaluationResults allResults s1 in
      setPhase RESULTS s2
  end.

(** [runEvaluation] of [src/unnamed/part_003] (159-288) on its project-less
    path ([testSetId] is [null]), which uses [/api/evaluate] batch by batch. *)
Definition runEvaluation_part003 (fetch : nat -> list Joined -> FetchResult) (s : Store) : Store :=
  match mergedData s with
  | None | Some [] => s
  | Some md =>
      let s1 := setPhase EVALUATING s in
      let allResults := process_batches part003_batch_step fetch 0 (make_batches md) [] in
      if Nat.eqb (List.length allResults) 0 then setPhase KPI_CONFIG s1
      else setPhase RESULTS (setEvaluationResults allResults s1)
  end.

(** ** SummaryAggregator *)

(** [a || 0] on a number: [0] (and [NaN]) is falsy. *)
Definition or_zero (q : Q) : Q := if Qeq_bool q 0 then 0 else q.

(** [r.scores.find((s) => s.kpiId === kpi.id)?.score || 0] *)
Definition find_score (kid : Z) (r : EvaluationResult) : Q :=
  match find (fun s => Z.eqb (kpiId s) kid) (scores r) with
  | Some s => or_zero (score s)
  | None => 0
  end.

Definition Qsum (l : list Q) : Q := fold_left Qplus l 0.

Record EvaluationSummary : Type := mkEvaluationSummary {
  summary_kpiId : Z;
  kpiName : string;
  shortName : string;
  averageScore : Q;
  shortExplanation : string
}.

(** The averages of [POST] in [src/app/api/generate-summary/route.ts]
    (20-36). *)
Definition kpi_average (results : list EvaluationResult) (kpi : KPI) : Q :=
  let scores := filter (fun s => Qlt_bool 0 s) (map (find_score (kpi_id kpi)) results) in
  if Nat.ltb 0 (List.length scores)
  then Qsum scores / inject_Z (Z.of_nat (List.length scores))
  else 0.

Definition summaries (results : list EvaluationResult) (kpis : list KPI)
  : list EvaluationSummary :=
  map (fun kpi => mkEvaluationSummary (kpi_id kpi) (kpi_name kpi) (kpi_shortName kpi)
                    (kpi_average results kpi) "") kpis.

(** [summaryStats] of [src/components/ResultsDisplay.tsx] (32-52), with the
    [mean] and [count] fields (the median is not modelled). *)
Record SummaryStat : Type := mkSummaryStat {
  stat_kpiId : Z;
  mean : Q;
  count : nat
}.

Definition summaryStats (evaluationResults : option (list EvaluationResult))
  (activeKPIs : list KPI) : list SummaryStat :=
  match evaluationResults with
  | None | Some [] => []
  | Some rs =>
      map (fun kpi =>
             let scores :=
               filter (fun s => Qlt_bool 0 s)
                 (map score (flat_map (fun r => filter (fun s => Z.eqb (kpiId s) (kpi_id kpi))
                                                   (scores r)) rs)) in
             match scores with
             | [] => mkSummaryStat (kpi_id kpi) 0 0
             | _ => mkSummaryStat (kpi_id kpi)
                      (Qsum scores / inject_Z (Z.of_nat (List.length scores)))
                      (List.length scores)
             end) activeKPIs
  end.

(** ** Classifiers *)

(** [getStatusText] of [src/components/ResultsDisplay.tsx] (114-119). *)
Definition getStatusText (score : Q) : string :=
  if Qle_bool (9#2) score then "OPTIMAL"
  else if Qle_bool (7#2) score then "GOOD"
  else if Qle_bool (5#2) score then "MARGINAL"
  else "CRITICAL".

(** The guard of [ResultsDisplay] (82-105): when [evaluationResults] is
    null or empty it renders only the error panel "No evaluation results
    available" (pointing at a missing ANTHROPIC_API_KEY), otherwise the
    result tables. *)
Inductive ResultsView : Type := NoResultsErrorPanel | ResultTables.

Definition resultsDisplay_view (evaluationResults : option (list EvaluationResult))
  : ResultsView :=
  match evaluationResults with
  | None => NoResultsErrorPanel
  | Some ers => if Nat.eqb (List.length ers) 0 then NoResultsErrorPanel else ResultTables
  end.

(** The results area of [src/app/page.tsx] (436-438):
    [currentPhase === 'RESULTS' && <ResultsDisplay ... />]. *)
Definition page_results_view (s : Store) : option ResultsView :=
  match currentPhase s with
  | RESULTS => Some (resultsDisplay_view (evaluationResults s))
  | _ => None
  end.

(** [getExplanationForScore] of [src/unnamed/part_006] (15-25). *)
Definition getExplanationForScore (average : Q) : string :=
  if Qle_bool 4 average then "Performance meets optimal standards. Quality targets achieved."
  else if Qle_bool 3 average then "Acceptable performance with room for improvement."
  else if Qle_bool 2 average then "Below threshold. Review and remediation recommended."
  else "Critical issues detected. Immediate attention required.".

(** ** Re-evaluation splice: [updateEvaluationResult] of [src/lib/store.ts]
    (139-143) *)
Definition updateEvaluationResult (m : Cell) (result : EvaluationResult) (s : Store) : Store :=
  mkStore (mergedData s)
    (match evaluationResults s with
     | Some rs => Some (map (fun r => if cell_eqb (msid r) m then result else r) rs)
     | None => Some [result]
     end)
    (currentPhase s) (validationError s) (dataMismatchLog s).

(** ** ASCII text: [toLowerCase] and [trim]

    Strings are ASCII text here. [toLowerCase] maps A-Z to a-z; [trim] and
    the class [\s] of regular expressions use the ASCII white space (tab,
    line feed, vertical tab, form feed, carriage return, space). *)

Definition lower_ascii (c : ascii) : ascii :=
  let n := nat_of_ascii c in
  if (Nat.leb 65 n && Nat.leb n 90)%bool then ascii_of_nat (n + 32) else c.

Fixpoint toLowerCase (s : string) : string :=
  match s with
  | EmptyString => EmptyString
  | String c s' => String (lower_ascii c) (toLowerCase s')
  end.

Definition is_space (c : ascii) : bool :=
  let n := nat_of_ascii c in
  ((Nat.leb 9 n && Nat.leb n 13) || Nat.eqb n 32)%bool.

Fixpoint drop_spaces (l : list ascii) : list ascii :=
  match l with
  | [] => []
  | c :: l' => if is_space c then drop_spaces l' else l
  end.

Definition trim (s : string) : string :=
  string_of_list_ascii
    (rev (drop_spaces (rev (drop_spaces (list_ascii_of_string s))))).

(** An upper-case ASCII letter. *)
Definition is_upper (c : ascii) : bool :=
  let n := nat_of_ascii c in (Nat.leb 65 n && Nat.leb n 90)%bool.

(** ** Regular expressions with the flag [i]

    A backtracking matcher in the order of ECMAScript: [matches r s] lists
    every way [r] can match a prefix of [s], as the rest of the input and
    the text of the capture group, in the order the backtracking engine
    tries them; the first one is the match. Quantifiers are greedy, and an
    iteration of [?] or [*] that consumes nothing fails, as in
    ECMAScript's RepeatMatcher. Each pattern used has at most one capture
    group, outside of any quantifier. *)

Inductive regex : Type :=
| RChar (c : ascii)
| RClass (p : ascii -> bool)
| RSeq (r1 r2 : regex)
| ROpt (r : regex)
| RStar (r : regex)
| RGroup (r : regex).

(** [x+] is [x x*]. *)
Definition RPlus (r : regex) : regex := RSeq r (RStar r).

Definition Cap : Type := option (list ascii).

Definition merge_cap (c1 c2 : Cap) : Cap :=
  match c2 with Some _ => c2 | None => c1 end.

(** Character comparison under [i]: both sides canonicalised. *)
Definition chr_eq (a b : ascii) : bool := Ascii.eqb (lower_ascii a) (lower_ascii b).

(** Greedy iterations of a matcher [mr]; each one has to consume input, so
    [S (length s)] rounds exhaust every path. *)
Fixpoint star_m (mr : list ascii -> list (list ascii * Cap)) (n : nat) (s : list ascii)
  : list (list ascii * Cap) :=
  match n with
  | O => [(s, None)]
  | S n' =>
      app (flat_map (fun p =>
                       if Nat.ltb (List.length (fst p)) (List.length s)
                       then map (fun q => (fst q, merge_cap (snd p) (snd q))) (star_m mr n' (fst p))
                       else []) (mr s))
          [(s, None)]
  end.

Fixpoint matches (r : regex) (s : list ascii) : list (list ascii * Cap) :=
  match r with
  | RChar c => match s with x :: s' => if chr_eq c x then [(s', None)] else [] | [] => [] end
  | RClass p => match s with x :: s' => if p x then [(s', None)] else [] | [] => [] end
  | RSeq r1 r2 =>
      flat_map (fun p => map (fun q => (fst q, merge_cap (snd p) (snd q))) (matches r2 (fst p)))
        (matches r1 s)
  | ROpt r1 =>
      app (filter (fun p => Nat.ltb (List.length (fst p)) (List.length s)) (matches r1 s))
          [(s, None)]
  | RStar r1 => star_m (matches r1) (S (List.length s)) s
  | RGroup r1 =>
      map (fun p => (fst p, Some (firstn (List.length s - List.length (fst p)) s))) (matches r1 s)
  end.

(** [s.match(r)] without the flag [g]: the leftmost position where [r]
    matches, and the capture group there. *)
Fixpoint search (r : regex) (s : list ascii) : option Cap :=
  match matches r s with
  | p :: _ => Some (snd p)
  | [] => match s with [] => None | _ :: s' => search r s' end
  end.

(** [cmd.match(r)?.[1]]: [None] when there is no match. *)
Definition regex_group (r : regex) (cmd : string) : option string :=
  match search r (list_ascii_of_string cmd) with
  | Some (Some g) => Some (string_of_list_ascii g)
  | _ => None
  end.

(** A literal word followed by the rest of the pattern. *)
Definition lit (w : string) (rest : regex) : regex :=
  fold_right (fun c r => RSeq (RChar c) r) rest (list_ascii_of_string w).

Definition re_space : regex := RClass is_space.
Definition re_digit : regex :=
  RClass (fun c => (Nat.leb 48 (nat_of_ascii c) && Nat.leb (nat_of_ascii c) 57)%bool).
(** [.]: anything but a line terminator. *)
Definition re_dot : regex :=
  RClass (fun c => negb (Nat.eqb (nat_of_ascii c) 10 || Nat.eqb (nat_of_ascii c) 13)).

(** [/re-?configure\s+kpi\s+(\d+)/i] *)
Definition re_configure : regex :=
  lit "re" (RSeq (ROpt (RChar "-")) (lit "configure" (RSeq (RPlus re_space)
    (lit "kpi" (RSeq (RPlus re_space) (RGroup (RPlus re_digit))))))).

(** [/re-?evaluate\s+msid\s+(.+)/i] *)
Definition re_evaluate : regex :=
  lit "re" (RSeq (ROpt (RChar "-")) (lit "evaluate" (RSeq (RPlus re_space)
    (lit "msid" (RSeq (RPlus re_space) (RGroup (RPlus re_dot))))))).

(** [/mistake.*kpi\s*(\d+)/i] *)
Definition re_mistake : regex :=
  lit "mistake" (RSeq (RStar re_dot) (lit "kpi" (RSeq (RStar re_space) (RGroup (RPlus re_digit))))).

(** [/wrong.*msid\s*\[?([^\]]+)\]?/i] *)
Definition re_wrong : regex :=
  lit "wrong" (RSeq (RStar re_dot) (lit "msid" (RSeq (RStar re_space)
    (RSeq (ROpt (RChar "[")) (RSeq (RGroup (RPlus (RClass (fun c => negb (Ascii.eqb c "]")))))
                                  (ROpt (RChar "]"))))))).

(** [parseInt] of a string of decimal digits. *)
Definition parseInt (s : string) : Z :=
  fold_left (fun acc c => (10 * acc + (Z.of_nat (nat_of_ascii c) - 48))%Z)
    (list_ascii_of_string s) 0%Z.

(** ** The full zustand store ([src/lib/store.ts], types of
    [src/unnamed/part_018]) *)

Module Screen.
Inductive t : Type :=
| PROJECTS | PROJECT_HUB | UPLOAD | KPI_CONFIG | EVALUATING | RESULTS | ERROR.
End Screen.

Record ProjectKPI : Type := mkProjectKPI {
  kpiNumber : Z;
  pk_name : string;
  pk_description : string;
  pk_shortName : string
}.

Record Project : Type := mkProject {
  project_id : string;
  project_name : string;
  project_kpis : list ProjectKPI
}.

Record TestSetDetail : Type := mkTestSetDetail {
  testset_name : string;
  testset_kpis : option (list KPI);
  testset_evaluationResults : list EvaluationResult;
  dataMismatches : list (Cell * string)
}.

Inductive LogType : Type := INFO | WARNING | LOG_ERROR | SUCCESS.

Record SystemLog : Type := mkSystemLog {
  timestamp : string;
  log_type : LogType;
  log_message : string
}.

(** [Partial<KPI>]: the properties the update object has. *)
Record KPIUpdate : Type := mkKPIUpdate {
  upd_id : option Z;
  upd_name : option string;
  upd_description : option string;
  upd_shortName : option string
}.

(** [{ ...kpi, ...updates }] *)
Definition spread_kpi (kpi : KPI) (u : KPIUpdate) : KPI :=
  mkKPI (match upd_id u with Some v => v | None => kpi_id kpi end)
        (match upd_name u with Some v => v | None => kpi_name kpi end)
        (match upd_description u with Some v => v | None => kpi_description kpi end)
        (match upd_shortName u with Some v => v | None => kpi_shortName kpi end).

(** The four blank KPIs of the initial state and of [clearData]. *)
Definition blankKPIs : list KPI :=
  [mkKPI 1 "" "" ""; mkKPI 2 "" "" ""; mkKPI 3 "" "" ""; mkKPI 4 "" "" ""].

Module AppStore.

Record t : Type := mkState {
  currentProject : option Project;
  currentTestSet : option TestSetDetail;
  sourceData : option (list DataRow);
  targetData : option (list DataRow);
  mergedData : option (list Joined);
  kpis : list KPI;
  evaluationResults : option (list EvaluationResult);
  evaluationSummary : option (list EvaluationSummary);
  currentScreen : Screen.t;
  currentPhase : Phase;
  isLoading : bool;
  loadingMessage : string;
  systemLogs : list SystemLog;
  dataMismatchLog : list (Cell * string);
  validationError : option ValidationError;
  terminalHistory : list string
}.

(** One property of the partial object given to zustand's [set]. *)
Inductive Field : Type :=
| FcurrentProject (v : option Project)
| FcurrentTestSet (v : option TestSetDetail)
| FsourceData (v : option (list DataRow))
| FtargetData (v : option (list DataRow))
| FmergedData (v : option (list Joined))
| Fkpis (v : list KPI)
| FevaluationResults (v : option (list EvaluationResult))
| FevaluationSummary (v : option (list EvaluationSummary))
| FcurrentScreen (v : Screen.t)
| FcurrentPhase (v : Phase)
| FisLoading (v : bool)
| FloadingMessage (v : string)
| FsystemLogs (v : list SystemLog)
| FdataMismatchLog (v : list (Cell * string))
| FvalidationError (v : option ValidationError)
| FterminalHistory (v : list string).

Definition apply_field (s : t) (f : Field) : t :=
  let '(mkState cp ct sd td md k er es sc ph il lm sl dm ve th) := s in
  match f with
  | FcurrentProject v => mkState v ct sd td md k er es sc ph il lm sl dm ve th
  | FcurrentTestSet v => mkState cp v sd td md k er es sc ph il lm sl dm ve th
  | FsourceData v => mkState cp ct v td md k er es sc ph il lm sl dm ve th
  | FtargetData v => mkState cp ct sd v md k er es sc ph il lm sl dm ve th
  | FmergedData v => mkState cp ct sd td v k er es sc ph il lm sl dm ve th
  | Fkpis v => mkState cp ct sd td md v er es sc ph il lm sl dm ve th
  | FevaluationResults v => mkState cp ct sd td md k v es sc ph il lm sl dm ve th
  | FevaluationSummary v => mkState cp ct sd td md k er v sc ph il lm sl dm ve th
  | FcurrentScreen v => mkState cp ct sd td md k er es v ph il lm sl dm ve th
  | FcurrentPhase v => mkState cp ct sd td md k er es sc v il lm sl dm ve th
  | FisLoading v => mkState cp ct sd td md k er es sc ph v lm sl dm ve th
  | FloadingMessage v => mkState cp ct sd td md k er es sc ph il v sl dm ve th
  | FsystemLogs v => mkState cp ct sd td md k er es sc ph il lm v dm ve th
  | FdataMismatchLog v => mkState cp ct sd td md k er es sc ph il lm sl v ve th
  | FvalidationError v => mkState cp ct sd td md k er es sc ph il lm sl dm v th
  | FterminalHistory v => mkState cp ct sd td md k er es sc ph il lm sl dm ve v
  end.

(** zustand's [set(partial)]: a shallow merge of the given properties. *)
Definition set (fs : list Field) (s : t) : t := fold_left apply_field fs s.

Definition initial : t :=
  mkState None None None None None blankKPIs None None Screen.PROJECTS UPLOAD false ""
    [] [] None [].

Definition setCurrentTestSet (ts : option TestSetDetail) (s : t) : t :=
  set [FcurrentTestSet ts] s.
Definition setScreen (sc : Screen.t) (s : t) : t := set [FcurrentScreen sc] s.
Definition setSourceData (d : list DataRow) (s : t) : t := set [FsourceData (Some d)] s.
Definition setTargetData (d : list DataRow) (s : t) : t := set [FtargetData (Some d)] s.
Definition setMergedData (d : list Joined) (s : t) : t := set [FmergedData (Some d)] s.
Definition setKPIs (k : list KPI) (s : t) : t := set [Fkpis k] s.
Definition setEvaluationResults (r : list EvaluationResult) (s : t) : t :=
  set [FevaluationResults (Some r)] s.
Definition setPhase (p : Phase) (s : t) : t := set [FcurrentPhase p] s.
Definition setLoading (loading : bool) (msg : string) (s : t) : t :=
  set [FisLoading loading; FloadingMessage msg] s.
Definition setValidationError (e : option ValidationError) (s : t) : t :=
  set [FvalidationError e] s.

Definition clearData (s : t) : t :=
  set [FsourceData None; FtargetData None; FmergedData None; FevaluationResults None;
       FevaluationSummary None; FdataMismatchLog []; Fkpis blankKPIs] s.

Definition clearTestFlow (s : t) : t :=
  set [FsourceData None; FtargetData None; FmergedData None; FevaluationResults None;
       FevaluationSummary None; FdataMismatchLog []; FcurrentTestSet None;
       FterminalHistory []; FsystemLogs []; FvalidationError None] s.

Definition updateKPI (id : Z) (updates : KPIUpdate) (s : t) : t :=
  set [Fkpis (map (fun kpi => if Z.eqb (kpi_id kpi) id then spread_kpi kpi updates else kpi)
                (kpis s))] s.

(** The [while (prefilled.length < 4)] loop; it runs at most four times. *)
Fixpoint pad_kpis (fuel : nat) (prefilled : list KPI) : list KPI :=
  match fuel with
  | O => prefilled
  | S f =>
      if Nat.ltb (List.length prefilled) 4
      then pad_kpis f (app prefilled [mkKPI (Z.of_nat (List.length prefilled) + 1) "" "" ""])
      else prefilled
  end.

Definition prefillKPIsFromProject (s : t) : t :=
  match currentProject s with
  | Some p =>
      if Nat.ltb 0 (List.length (project_kpis p)) then
        let prefilled :=
          map (fun kpi => mkKPI (kpiNumber kpi) (pk_name kpi) (pk_description kpi)
                            (pk_shortName kpi)) (project_kpis p) in
        set [Fkpis (pad_kpis 4 prefilled)] s
      else s
  | None => s
  end.

Definition updateEvaluationResult (m : string) (result : EvaluationResult) (s : t) : t :=
  set [FevaluationResults
         (match evaluationResults s with
          | Some rs => Some (map (fun r => if cell_eqb (msid r) (CStr m) then result else r) rs)
          | None => Some [result]
          end)] s.

(** [addLog]; [now] is [new Date().toISOString()]. *)
Definition addLog (now : string) (ty : LogType) (message : string) (s : t) : t :=
  set [FsystemLogs (app (systemLogs s) [mkSystemLog now ty message])] s.

Definition addDataMismatch (m : Cell) (field : string) (s : t) : t :=
  set [FdataMismatchLog (app (dataMismatchLog s) [(m, field)])] s.

Definition addTerminalEntry (entry : string) (s : t) : t :=
  set [FterminalHistory (app (terminalHistory s) [entry])] s.

Definition clearTerminal (s : t) : t := set [FterminalHistory []] s.

Definition goToProjects (s : t) : t :=
  set [FcurrentScreen Screen.PROJECTS; FcurrentProject None; FcurrentTestSet None;
       FsourceData None; FtargetData None; FmergedData None; FevaluationResults None;
       FevaluationSummary None; FdataMismatchLog []; FterminalHistory []; FsystemLogs [];
       FvalidationError None] s.

Definition goToProjectHub (p : Project) (s : t) : t :=
  set [FcurrentScreen Screen.PROJECT_HUB; FcurrentProject (Some p); FcurrentTestSet None] s.

Definition startNewTest (s : t) : t :=
  set [FcurrentScreen Screen.UPLOAD; FcurrentPhase UPLOAD; FsourceData None;
       FtargetData None; FmergedData None; FevaluationResults None; FevaluationSummary None;
       FdataMismatchLog []; FterminalHistory []; FsystemLogs []; FvalidationError None;
       FcurrentTestSet None]
    (prefillKPIsFromProject s).

End AppStore.

(** ** File loading: [processFile] of [src/components/FileUpload.tsx]
    (22-93), after parsing *)

(** [{ ...row, [k]: v }]: an existing property keeps its position, a new one
    comes last. *)
Fixpoint obj_set {A : Type} (k : string) (v : A) (o : list (string * A)) : list (string * A) :=
  match o with
  | [] => [(k, v)]
  | (k', v') :: o' => if String.eqb k' k then (k, v) :: o' else (k', v') :: obj_set k v o'
  end.

(** [delete o[k]] *)
Definition obj_delete {A : Type} (k : string) (o : list (string * A)) : list (string * A) :=
  filter (fun e => negb (String.eqb (fst e) k)) o.

Inductive UploadOutcome : Type :=
| DataLoaded (data : list DataRow)
| UploadError (message : string).

(** [parsed] is what the CSV or spreadsheet reader produced: [inl msg] when
    it threw (a parse error or an unsupported extension), the rows
    otherwise. The component then calls [onDataLoaded] or [onError]. *)
Definition processFile (label : string) (parsed : string + list DataRow) : UploadOutcome :=
  match parsed with
  | inl msg => UploadError msg
  | inr data =>
      match data with
      | [] => DataLoaded []
      | firstRow :: _ =>
          match find (fun key => String.eqb (toLowerCase key) "msid") (map fst firstRow) with
          | None => UploadError ("MSID column not found in " ++ label)
          | Some msidKey =>
              if String.eqb msidKey "MSID" then DataLoaded data
              else DataLoaded (map (fun row => obj_delete msidKey
                                                 (obj_set "MSID" (get_prop msidKey row) row)) data)
          end
      end
  end.

(** The body of the re-evaluation request. *)
Record PutBody : Type := mkPutBody {
  put_source : DataRow;
  put_target : DataRow;
  put_kpis : list KPI;
  put_msid : string;
  userFeedback : string
}.

(** ** The home page of [src/app/page.tsx]: upload errors, terminal
    commands and reset *)

Module HomePage.

(** Store actions on the full store. *)
Import AppStore.

(** [handleUploadError] (117-125) *)
Definition handleUploadError (now : string) (message : string) (s : AppStore.t) : AppStore.t :=
  addLog now LOG_ERROR message
    (setPhase ERROR (setValidationError (Some (mkValidationError MISSING_MSID_COLUMN message None)) s)).

(** The [onDataLoaded] / [onError] callbacks of the [FileUpload] of a side
    ([SOURCE_INPUT] or [TARGET_OUTPUT]). *)
Definition upload (now : string) (isSource : bool) (parsed : string + list DataRow)
  (s : AppStore.t) : AppStore.t :=
  let label := if isSource then "SOURCE_INPUT" else "TARGET_OUTPUT" in
  match processFile label parsed with
  | DataLoaded data =>
      addLog now INFO (label ++ " loaded: " ++ string_of_Z (Z.of_nat (List.length data)) ++ " records")
        (if isSource then setSourceData data s else setTargetData data s)
  | UploadError msg => handleUploadError now msg s
  end.

(** What [await fetch('/api/evaluate', { method: 'PUT', ... })] yields:
    the call throws, or a response with its [ok] flag and the body read by
    [response.json()] ([None] when that throws). *)
Inductive PutOutcome : Type :=
| PutThrows
| PutResponse (ok : bool) (json : option EvaluationResult).

(** The page: the store, the [showFailuresOnly] state, and the
    re-evaluation requests sent so far. *)
Record Page : Type := mkPage {
  store : AppStore.t;
  showFailuresOnly : bool;
  sent : list PutBody
}.

Definition with_store (p : Page) (s : AppStore.t) : Page := mkPage s (showFailuresOnly p) (sent p).

(** Consecutive [addTerminalEntry] calls. *)
Definition say (entries : list string) (s : AppStore.t) : AppStore.t :=
  fold_left (fun s e => addTerminalEntry e s) entries s.

Definition phase_name (p : Phase) : string :=
  match p with
  | UPLOAD => "UPLOAD" | KPI_CONFIG => "KPI_CONFIG" | EVALUATING => "EVALUATING"
  | RESULTS => "RESULTS" | ERROR => "ERROR"
  end.

(** The lines of the [help] command (205-216). *)
Definition help_lines : list string :=
  ["";
   "AVAILABLE COMMANDS:";
   "───────────────────────────────────────";
   "  help                    - Show this help message";
   "  status                  - Show current system status";
   "  drill down on failures  - Filter to show only scores < 3";
   "  show all                - Show all results";
   "  re-configure kpi [N]    - Update KPI N configuration";
   "  re-evaluate msid [X]    - Re-evaluate specific MSID";
   "  clear                   - Clear terminal history";
   "  restart                 - Reset and start over";
   ""].

(** A double quote character. *)
Definition dquote : string := String "034"%char EmptyString.

(** [`${data?.length || 0}`] *)
Definition count_text {A : Type} (d : option (list A)) : string :=
  string_of_Z (Z.of_nat (match d with Some l => List.length l | None => 0%nat end)).

Definition feedback_text : string :=
  "User requested re-evaluation. Please review more carefully.".

(** The [re-configure kpi] branch (261-276): it only prints. *)
Definition reconfigure_branch (digits : string) (s : AppStore.t) : AppStore.t :=
  let kpiId := parseInt digits in
  if (Z.leb 1 kpiId && Z.leb kpiId 4)%bool then
    say [""; "Enter new description for KPI " ++ string_of_Z kpiId ++ ":";
         "(Feature: Use the KPI config panel to update)"; ""] s
  else say [""; "ERROR: KPI ID must be between 1 and 4"; ""] s.

(** The [re-evaluate msid] branch (279-320), for the trimmed capture
    [msid]; [put] is the outcome of the request it sends. *)
Definition reevaluate_branch (put : PutBody -> PutOutcome) (now : string) (msid : string)
  (p : Page) : Page :=
  let s := store p in
  let record :=
    match mergedData s with
    | Some md => find (fun m => cell_eqb (MSID (source m)) (CStr msid)) md
    | None => None
    end in
  match record with
  | None =>
      with_store p (say [""; "ERROR: MSID " ++ dquote ++ msid ++ dquote ++ " not found in dataset"; ""] s)
  | Some record =>
      let s1 := say [""; "RE-EVALUATING MSID: " ++ msid ++ "..."] s in
      let body := mkPutBody (source record) (target record) (kpis s) msid feedback_text in
      let s2 :=
        match put body with
        | PutResponse true (Some result) =>
            addLog now SUCCESS ("MSID " ++ msid ++ " re-evaluated")
              (addTerminalEntry ("RE-EVALUATION COMPLETE for MSID: " ++ msid)
                 (updateEvaluationResult msid result s1))
        | PutResponse false _ => addTerminalEntry "ERROR: Re-evaluation failed" s1
        | PutResponse true None | PutThrows =>
            addTerminalEntry "ERROR: Network error during re-evaluation" s1
        end in
      mkPage (addTerminalEntry "" s2) (showFailuresOnly p) (app (sent p) [body])
  end.

(** [handleTerminalCommand] (201-349). The capture groups of the four
    patterns always take part in a match. *)
Definition handleTerminalCommand (put : PutBody -> PutOutcome) (now : string) (command : string)
  (p : Page) : Page :=
  let s := store p in
  let cmd := trim (toLowerCase command) in
  if String.eqb cmd "help" then with_store p (say help_lines s)
  else if String.eqb cmd "status" then
    with_store p (say [""; "PHASE: " ++ phase_name (currentPhase s);
                       "SOURCE RECORDS: " ++ count_text (sourceData s);
                       "TARGET RECORDS: " ++ count_text (targetData s);
                       "EVALUATED: " ++ count_text (evaluationResults s); ""] s)
  else if (String.eqb cmd "drill down on failures" || String.eqb cmd "show failures")%bool then
    mkPage (say [""; "FILTER APPLIED: Showing records with scores < 3"; ""] s) true (sent p)
  else if String.eqb cmd "show all" then
    mkPage (say [""; "FILTER REMOVED: Showing all records"; ""] s) false (sent p)
  else if String.eqb cmd "clear" then with_store p (clearTerminal s)
  else if String.eqb cmd "restart" then
    with_store p (say [""; "SYSTEM RESET. Ready for new data upload."; ""]
                    (setPhase UPLOAD (clearData s)))
  else
  match regex_group re_configure cmd with
  | Some g => with_store p (reconfigure_branch g s)
  | None =>
  match regex_group re_evaluate cmd with
  | Some g => reevaluate_branch put now (trim g) p
  | None =>
  match regex_group re_mistake cmd with
  | Some g =>
      with_store p (say [""; "Acknowledged. Please update KPI " ++ string_of_Z (parseInt g) ++
                             " in the configuration panel.";
                         "After updating, type " ++ dquote ++ "re-run kpi [N]" ++ dquote ++
                           " to re-evaluate."; ""] s)
  | None =>
  match regex_group re_wrong cmd with
  | Some g =>
      let msid := trim g in
      with_store p (say [""; "Acknowledged. Queuing MSID " ++ msid ++ " for re-evaluation with your feedback.";
                         "Run: re-evaluate msid " ++ msid; ""] s)
  | None =>
      with_store p (say [""; "UNKNOWN COMMAND: " ++ command;
                         "Type " ++ dquote ++ "help" ++ dquote ++ " for available commands."; ""] s)
  end end end end.

(** [handleReset] (351-356), the [RESET] button. *)
Definition handleReset (p : Page) : Page :=
  mkPage (setPhase UPLOAD (clearTerminal (clearData (store p)))) false (sent p).

(** The [onDismiss] of the error overlay (375-378); the overlay is shown
    while [validationError] is set. *)
Definition dismissError (p : Page) : Page :=
  with_store p (setPhase UPLOAD (setValidationError None (store p))).

End HomePage.

(** ** Re-evaluation endpoint: [PUT] of [src/app/api/evaluate/route.ts]
    (171-240) *)

Inductive PutReply : Type :=
| PutJson (m : string) (sc : list ScoreEntry)
| PutError500.

(** [body] is [None] when [request.json()] throws; in live mode [out] is the
    outcome of the single Evaluator call, and every failure reaches the
    outer [catch]. *)
Definition PUT (JSON_parse : string -> option (list ScoreEntry)) (apiKeySet : bool)
  (random : nat -> Q) (out : CreateOutcome) (body : option PutBody) : PutReply :=
  match body with
  | None => PutError500
  | Some b =>
      if negb apiKeySet then
        match fst (generateDemoScores random (put_kpis b) 0%nat) with
        | Some sc => PutJson (put_msid b) sc
        | None => PutError500
        end
      else
        match parse_response JSON_parse out with
        | Some sc => PutJson (put_msid b) sc
        | None => PutError500
        end
  end.

(** The client's [fetch] of the [PUT] endpoint: a 500 reply is a response
    that is not [ok]. *)
Definition put_transport (JSON_parse : string -> option (list ScoreEntry)) (apiKeySet : bool)
  (random : nat -> Q) (out : CreateOutcome) (b : PutBody) : HomePage.PutOutcome :=
  match PUT JSON_parse apiKeySet random out (Some b) with
  | PutJson m sc => HomePage.PutResponse true (Some (mkEvaluationResult (CStr m) sc))
  | PutError500 => HomePage.PutResponse false None
  end.

(** ** Result views of [src/components/ResultsDisplay.tsx] *)

(** The key of a score in [kpiScores] (61-62):
    [kpi?.shortName || `KPI_${score.kpiId}`]. *)
Definition kpiKey (activeKPIs : list KPI) (e : ScoreEntry) : string :=
  match find (fun k => Z.eqb (kpi_id k) (kpiId e)) activeKPIs with
  | Some k => if String.eqb (kpi_shortName k) "" then "KPI_" ++ string_of_Z (kpiId e)
              else kpi_shortName k
  | None => "KPI_" ++ string_of_Z (kpiId e)
  end.

Record DetailedResult : Type := mkDetailedResult {
  d_msid : Cell;
  d_scores : list (string * (Q * string))
}.

(** One row of [detailedResults]: [result.scores.forEach(...)] filling
    [kpiScores]. *)
Definition detail_row (activeKPIs : list KPI) (result : EvaluationResult) : DetailedResult :=
  mkDetailedResult (msid result)
    (fold_left (fun o e => obj_set (kpiKey activeKPIs e) (score e, explanation e) o)
       (scores result) []).

(** [detailedResults] (54-74): one row per result, its scores keyed by
    [kpiKey] (a later score with the same key overwrites the earlier one);
    with [filterFailures], the rows with some score below 3. *)
Definition detailedResults (evaluationResults : option (list EvaluationResult))
  (activeKPIs : list KPI) (filterFailures : bool) : list DetailedResult :=
  match evaluationResults with
  | None => []
  | Some ers =>
      let results := map (detail_row activeKPIs) ers in
      if filterFailures
      then filter (fun r => existsb (fun kv => Qlt_bool (fst (snd kv)) 3) (d_scores r)) results
      else results
  end.

(** The positive scores of a KPI (36-39). *)
Definition kpi_scores (ers : list EvaluationResult) (kpi : KPI) : list Q :=
  filter (fun s => Qlt_bool 0 s)
    (map score (flat_map (fun r => filter (fun s => Z.eqb (kpiId s) (kpi_id kpi)) (scores r)) ers)).

(** [[...scores].sort((a, b) => a - b)] *)
Fixpoint insert_sorted (x : Q) (l : list Q) : list Q :=
  match l with
  | [] => [x]
  | y :: l' => if Qle_bool x y then x :: l else y :: insert_sorted x l'
  end.

Definition sort_numbers (l : list Q) : list Q := fold_right insert_sorted [] l.

(** The median of (46-48). *)
Definition median_of (sorted : list Q) : Q :=
  let n := List.length sorted in
  let mid := Nat.div n 2 in
  if negb (Nat.eqb (Nat.modulo n 2) 0) then nth mid sorted 0
  else (nth (mid - 1) sorted 0 + nth mid sorted 0) / 2.

(** The [median] field of [summaryStats] (32-52), per active KPI. *)
Definition summaryMedians (evaluationResults : option (list EvaluationResult))
  (activeKPIs : list KPI) : list Q :=
  match evaluationResults with
  | None | Some [] => []
  | Some rs =>
      map (fun kpi => match kpi_scores rs kpi with
                      | [] => 0
                      | sc => median_of (sort_numbers sc)
                      end) activeKPIs
  end.


(** [getStatusColor] (107-112) *)
Definition getStatusColor (score : Q) : string :=
  if Qle_bool (9#2) score then "#008000"
  else if Qle_bool (7#2) score then "#228B22"
  else if Qle_bool (5#2) score then "#FF8C00"
  else "#CC0000".

(** ** Explanations of the summary endpoints *)

Record ExplanationEntry : Type := mkExplanationEntry {
  exp_kpiId : Z;
  exp_explanation : string
}.

Definition with_explanation (s : EvaluationSummary) (e : string) : EvaluationSummary :=
  mkEvaluationSummary (summary_kpiId s) (kpiName s) (shortName s) (averageScore s) e.

(** [summaries.find((s) => s.kpiId === exp.kpiId)] and the assignment to
    its [shortExplanation]: the object found is the one in the array. *)
Fixpoint set_explanation (kid : Z) (e : string) (ss : list EvaluationSummary)
  : list EvaluationSummary :=
  match ss with
  | [] => []
  | s :: ss' => if Z.eqb (summary_kpiId s) kid then with_explanation s e :: ss'
                else s :: set_explanation kid e ss'
  end.

(** [explanations.forEach(...)] *)
Definition apply_explanations (exps : list ExplanationEntry) (ss : list EvaluationSummary)
  : list EvaluationSummary :=
  fold_left (fun ss exp => set_explanation (exp_kpiId exp) (exp_explanation exp) ss) exps ss.

(** [responseText.match(/\[[\s\S]*\]/)] *)
Definition json_array_match (s : string) : option string :=
  match index_of "["%char s 0, last_index_of "]"%char s 0 with
  | Some i, Some j => if Nat.ltb i j then Some (substring i (j - i + 1) s) else None
  | _, _ => None
  end.

(** The generic explanations of the [catch] blocks (route.ts 88-98,
    part_006 104-114). *)
Definition generic_explanation (avg : Q) : string :=
  if Qle_bool 4 avg then "Performance meets optimal standards."
  else if Qle_bool 3 avg then "Acceptable performance with room for improvement."
  else if Qle_bool 2 avg then "Below threshold. Review recommended."
  else "Critical issues detected. Immediate attention required.".

Definition summary_fallback (ss : list EvaluationSummary) : list EvaluationSummary :=
  map (fun s => with_explanation s (generic_explanation (averageScore s))) ss.

Record SummaryRequest : Type := mkSummaryRequest {
  req_results : list EvaluationResult;
  req_kpis : list KPI
}.

Inductive SummaryReply : Type :=
| SummaryJson (summaries : list EvaluationSummary)
| SummaryError500.

(** [POST] of [src/app/api/generate-summary/route.ts] (14-110).
    [JSON_parse_array] is [JSON.parse] of the matched text followed by the
    [forEach]: [None] when one of them throws. [chat] is the outcome of
    [openai.chat.completions.create]: [None] when it throws, otherwise the
    content of the first choice, if any. *)
Definition POST_summary (JSON_parse_array : string -> option (list ExplanationEntry))
  (openaiKeySet : bool) (chat : option (option string)) (body : option SummaryRequest)
  : SummaryReply :=
  match body with
  | None => SummaryError500
  | Some req =>
      let ss := summaries (req_results req) (req_kpis req) in
      if negb openaiKeySet then SummaryJson ss
      else
        match chat with
        | None => SummaryJson (summary_fallback ss)
        | Some content =>
            let text := match content with Some t => t | None => "" end in
            match json_array_match text with
            | None => SummaryJson ss
            | Some m =>
                match JSON_parse_array m with
                | Some exps => SummaryJson (apply_explanations exps ss)
                | None => SummaryJson (summary_fallback ss)
                end
            end
        end
  end.

(** [POST] of [src/unnamed/part_006] (27-126): demo mode without
    [ANTHROPIC_API_KEY]; otherwise one Evaluator call with outcome [out]. *)
Definition POST_summary_part006 (JSON_parse_array : string -> option (list ExplanationEntry))
  (apiKeySet : bool) (out : CreateOutcome) (body : option SummaryRequest) : SummaryReply :=
  match body with
  | None => SummaryError500
  | Some req =>
      let ss := summaries (req_results req) (req_kpis req) in
      if negb apiKeySet then
        SummaryJson (map (fun s => with_explanation s (getExplanationForScore (averageScore s))) ss)
      else
        match out with
        | None => SummaryJson (summary_fallback ss)
        | Some content =>
            match responseText content with
            | None => SummaryJson (summary_fallback ss)
            | Some text =>
                match json_array_match text with
                | None => SummaryJson ss
                | Some m =>
                    match JSON_parse_array m with
                    | Some exps => SummaryJson (apply_explanations exps ss)
                    | None => SummaryJson (summary_fallback ss)
                    end
                end
            end
        end
  end.

(** ** Test inputs and helpers for the statements *)

Definition resA : EvaluationResult := mkEvaluationResult (CStr "A") [mkScoreEntry 1 4 "ok"].
Definition resB : EvaluationResult := mkEvaluationResult (CStr "B") [mkScoreEntry 1 2 "re-evaluated"].

Definition missingKeyError (sourceData : list DataRow) (s : Store) : Store :=
  setPhase ERROR
    (setValidationError
       (Some (mkValidationError MISSING_MSID_COLUMN (missing_msg (hasMSID sourceData)) None)) s).

Definition set_step (s : list Cell) (x : Cell) : list Cell :=
  if set_has s x then s else app s [x].

Definition map_step {A : Type} (k : Cell) (acc : option A) (e : Cell * A) : option A :=
  if cell_eqb (fst e) k then Some (snd e) else acc.

Definition rowA : DataRow := [("MSID", CStr "A"); ("text", CStr "")].
Definition rowB : DataRow := [("MSID", CStr "B"); ("text", CStr "hello")].

(** A key present on exactly one side. *)
Definition offending (xs ys : list Cell) (k : Cell) : bool :=
  xorb (set_has xs k) (set_has ys k).

(** The detail line for an offending key, naming the side it is missing
    from. *)
Definition parity_detail (xs : list Cell) (k : Cell) : string :=
  "MSID " ++ render_cell k ++
  (if set_has xs k then ": Missing in TARGET_OUTPUT" else ": Missing in SOURCE_INPUT").

Definition one_score (m : string) (q : Q) : EvaluationResult :=
  mkEvaluationResult (CStr m) [mkScoreEntry 1 q "note"].
Definition kpi1 : KPI := mkKPI 1 "Accuracy" "Facts are right" "ACC".

Definition jr1 : Joined := mkJoined rowA rowA.
Definition jr2 : Joined := mkJoined rowB rowB.

Definition demo_ok (kpi : KPI) (e : ScoreEntry) : Prop :=
  kpiId e = kpi_id kpi /\
  (exists z, score e = inject_Z z /\ (1 <= z <= 5)%Z) /\
  explanation e <> "".

(** The transport as the route in live mode with every Evaluator call
    rejected. *)
Definition fetch_all_rejected (ks : list KPI) (i : nat) (b : list Joined) : FetchResult :=
  FetchResponse true
    (Some (mapi_from (fun k rec => evaluate_record (fun _ => None) ks rec None) 0 b)).


(** No upper-case ASCII letter. *)
Definition no_upper (s : string) : bool :=
  forallb (fun c => negb (is_upper c)) (list_ascii_of_string s).

(** The explanation of the last entry for a KPI id. *)
Definition exp_step (kid : Z) (acc : option string) (e : ExplanationEntry) : option string :=
  if Z.eqb (exp_kpiId e) kid then Some (exp_explanation e) else acc.

Definition last_explanation (kid : Z) (exps : list ExplanationEntry) : option string :=
  fold_left (exp_step kid) exps None.

(** The position of the first summary with a KPI id. *)
Fixpoint first_index (kid : Z) (ss : list EvaluationSummary) : option nat :=
  match ss with
  | [] => None
  | s :: ss' => if Z.eqb (summary_kpiId s) kid then Some 0%nat
                else option_map S (first_index kid ss')
  end.

(** A summary without its explanation. *)
Definition summary_core (s : EvaluationSummary) : Z * string * string * Q :=
  (summary_kpiId s, kpiName s, shortName s, averageScore s).

(** The padding KPIs after [n] prefilled ones. *)
Definition padding (n : nat) : list KPI :=
  map (fun i => mkKPI (Z.of_nat i) "" "" "") (seq (S n) (4 - n)).

(** Helpers for the properties of the page, the store and the routes. *)

Definition cap_in (s : list ascii) (p : list ascii * Cap) : Prop :=
  incl (fst p) s /\ (forall g, snd p = Some g -> incl g s).

Definition put_for (p : HomePage.Page) (msid : string) (rec : Joined) : PutBody :=
  mkPutBody (source rec) (target rec) (AppStore.kpis (HomePage.store p)) msid HomePage.feedback_text.

Definition upper_page : HomePage.Page :=
  HomePage.mkPage
    (AppStore.set [AppStore.FmergedData (Some [mkJoined [("MSID", CStr "A1")] [("MSID", CStr "A1")]])]
       AppStore.initial) false [].

Definition live_page : HomePage.Page :=
  HomePage.mkPage
    (AppStore.set [AppStore.FmergedData (Some [mkJoined [("MSID", CStr "a1")] [("MSID", CStr "a1")]])]
       AppStore.initial) false [].

Definition kpi_of_project (k : ProjectKPI) : KPI :=
  mkKPI (kpiNumber k) (pk_name k) (pk_description k) (pk_shortName k).

Definition normalise_row (msidKey : string) (row : DataRow) : DataRow :=
  obj_delete msidKey (obj_set "MSID" (get_prop msidKey row) row).

Definition loaded_src : list DataRow := [[("msid", CStr "a1")]].

Definition loaded_tgt : list DataRow := [].

Definition status_color (text : string) : string :=
  if String.eqb text "OPTIMAL" then "#008000"
  else if String.eqb text "GOOD" then "#228B22"
  else if String.eqb text "MARGINAL" then "#FF8C00"
  else "#CC0000".

Definition at_first (kid : Z) (ss : list EvaluationSummary) (i : nat) : bool :=
  match first_index kid ss with Some j => Nat.eqb j i | None => false end.

(** * Properties *)

Example make_batches_45 :
  map (fun b => List.length b) (make_batches (repeat tt 45)) = [20; 20; 5]%nat.
Proof. reflexivity. Qed.

Example json_match_examples :
  json_match "Result: {a} and {b} done" = Some "{a} and {b}" /\
  json_match "no braces" = None /\ json_match "} before {" = None.
Proof. repeat split; reflexivity. Qed.

Example validate_parity_example :
  validationError
    (validateAndMergeData
       (Some [[("MSID", CStr "A")]; [("MSID", CStr "B")]; [("MSID", CStr "C")]])
       (Some [[("MSID", CStr "B")]; [("MSID", CStr "C")]; [("MSID", CStr "D")]])
       emptyStore)
  = Some (mkValidationError MSID_PARITY_ERROR parity_msg
            (Some ["MSID A: Missing in TARGET_OUTPUT"; "MSID D: Missing in SOURCE_INPUT"])).
Proof. reflexivity. Qed.

Example string_of_Z_examples :
  string_of_Z 0 = "0" /\ string_of_Z 7 = "7" /\ string_of_Z 10 = "10" /\
  string_of_Z (-305) = "-305" /\ string_of_Z 99 = "99".
Proof. repeat split; reflexivity. Qed.

Lemma Qle_bool_false (x y : Q) : Qle_bool x y = false -> y < x.
Proof.
  intros H. apply Qnot_le_lt. intros H'. apply Qle_bool_iff in H'. congruence.
Qed.

Ltac split_qle :=
  match goal with
  | |- context [Qle_bool ?x ?y] =>
      let E := fresh "E" in
      destruct (Qle_bool x y) eqn:E;
      [apply Qle_bool_iff in E | apply Qle_bool_false in E]
  end.

(** C8. [getStatusText] and [getExplanationForScore] are two classifiers
    with different thresholds: status OPTIMAL iff the average is at least
    4.5, GOOD iff in [3.5, 4.5), MARGINAL iff in [2.5, 3.5), CRITICAL
    otherwise; the explanation is the optimal/good sentence iff the average
    is at least 4, the acceptable one iff in [3, 4), the below-threshold one
    iff in [2, 3), the critical one iff below 2. At 3.0 they disagree:
    MARGINAL against acceptable. *)
Theorem status_and_explanation_bands (a : Q) :
  (getStatusText a = "OPTIMAL" <-> 9#2 <= a) /\
  (getStatusText a = "GOOD" <-> 7#2 <= a /\ a < 9#2) /\
  (getStatusText a = "MARGINAL" <-> 5#2 <= a /\ a < 7#2) /\
  (getStatusText a = "CRITICAL" <-> a < 5#2) /\
  (getExplanationForScore a = "Performance meets optimal standards. Quality targets achieved."
     <-> 4 <= a) /\
  (getExplanationForScore a = "Acceptable performance with room for improvement."
     <-> 3 <= a /\ a < 4) /\
  (getExplanationForScore a = "Below threshold. Review and remediation recommended."
     <-> 2 <= a /\ a < 3) /\
  (getExplanationForScore a = "Critical issues detected. Immediate attention required."
     <-> a < 2) /\
  getStatusText 3 = "MARGINAL" /\
  getExplanationForScore 3 = "Acceptable performance with room for improvement.".
Proof.
  refine (conj _ (conj _ (conj _ (conj _ (conj _ (conj _ (conj _ (conj _ (conj _ _)))))))));
    try reflexivity;
    unfold getStatusText, getExplanationForScore; repeat split_qle;
    split; intros; repeat split; try discriminate; try reflexivity; try lra.
Qed.

Lemma cell_eqb_eq (a b : Cell) : cell_eqb a b = true <-> a = b.
Proof.
  destruct a, b; simpl; split; intros H; try discriminate; try reflexivity;
    try (apply String.eqb_eq in H; subst; reflexivity);
    try (apply Z.eqb_eq in H; subst; reflexivity);
    try (injection H as ->; first [apply String.eqb_refl | apply Z.eqb_refl]).
Qed.

Lemma cell_eqb_refl (a : Cell) : cell_eqb a a = true.
Proof. apply cell_eqb_eq. reflexivity. Qed.

(** C9 (counterexample). Re-evaluating an msid absent from a non-empty
    result set does not append the new result: the set [[A]] stays [[A]]. *)
Lemma updateEvaluationResult_no_append :
  evaluationResults
    (updateEvaluationResult (CStr "B") resB (setEvaluationResults [resA] emptyStore))
  = Some [resA] /\
  evaluationResults
    (updateEvaluationResult (CStr "B") resB (setEvaluationResults [resA] emptyStore))
  <> Some [resA; resB].
Proof. split; [reflexivity | discriminate]. Qed.

(** C9 (amended). On an existing result set, [updateEvaluationResult m r]
    replaces every entry whose msid equals [m] by [r] and keeps every other
    entry, so length and order are preserved; when no entry has msid [m] the
    result set is unchanged. Only a missing ([null]) result set becomes
    [[r]]. Nothing else in the store changes. *)
Theorem updateEvaluationResult_splice (m : Cell) (result : EvaluationResult) (s : Store) :
  (forall rs, evaluationResults s = Some rs ->
     exists rs', evaluationResults (updateEvaluationResult m result s) = Some rs' /\
       List.length rs' = List.length rs /\
       (forall i r, nth_error rs i = Some r ->
          nth_error rs' i = Some (if cell_eqb (msid r) m then result else r)) /\
       ((forall r, In r rs -> msid r <> m) -> rs' = rs)) /\
  (evaluationResults s = None ->
     evaluationResults (updateEvaluationResult m result s) = Some [result]) /\
  mergedData (updateEvaluationResult m result s) = mergedData s /\
  currentPhase (updateEvaluationResult m result s) = currentPhase s.
Proof.
  split; [|split; [|split]]; try reflexivity.
  - intros rs Hrs. unfold updateEvaluationResult; simpl; rewrite Hrs.
    eexists; split; [reflexivity|]. split; [apply length_map|]. split.
    + intros i r Hi. rewrite nth_error_map, Hi. reflexivity.
    + intros Hnone. rewrite <- (map_id rs) at 2. apply map_ext_in.
      intros r Hr. destruct (cell_eqb (msid r) m) eqn:E; [|reflexivity].
      apply cell_eqb_eq in E. exfalso. exact (Hnone r Hr E).
  - intros Hn. unfold updateEvaluationResult; simpl; rewrite Hn. reflexivity.
Qed.

(** C9 witness. *)
Lemma updateEvaluationResult_splice_witness :
  exists rs', evaluationResults (updateEvaluationResult (CStr "A") resB
                                   (setEvaluationResults [resA] emptyStore)) = Some rs' /\
    List.length rs' = 1%nat.
Proof.
  destruct (proj1 (updateEvaluationResult_splice (CStr "A") resB
                     (setEvaluationResults [resA] emptyStore)) [resA] eq_refl)
    as [rs' [H1 [H2 _]]].
  exists rs'. split; [exact H1 | exact H2].
Defined.

(** C7 (counterexample). An empty source set does not pass the key-column
    check: validating [[]] against a target with an MSID column fails with
    MISSING_MSID_COLUMN naming SOURCE_INPUT. *)
Lemma empty_source_missing_msid :
  validationError
    (validateAndMergeData (Some []) (Some [[("MSID", CStr "A")]]) emptyStore)
  = Some (mkValidationError MISSING_MSID_COLUMN
            "MSID column not found in SOURCE_INPUT file." None).
Proof. reflexivity. Qed.

(** C7 (amended). [validateAndMergeData] fails with MISSING_MSID_COLUMN
    (phase ERROR, the error recorded, nothing else changed) exactly when the
    source or the target set is empty or lacks the MSID column in its first
    row; the message names SOURCE_INPUT when the source fails the check and
    TARGET_OUTPUT otherwise. In particular an empty set always fails it. *)
Theorem missing_msid_exactly (sourceData targetData : list DataRow) (s : Store) :
  (validateAndMergeData (Some sourceData) (Some targetData) s = missingKeyError sourceData s
   <-> hasMSID sourceData = false \/ hasMSID targetData = false) /\
  missing_msg (hasMSID sourceData) =
    (if hasMSID sourceData then "MSID column not found in TARGET_OUTPUT file."
     else "MSID column not found in SOURCE_INPUT file.") /\
  hasMSID [] = false.
Proof.
  split; [|split; [destruct (hasMSID sourceData); reflexivity | reflexivity]].
  unfold validateAndMergeData, missingKeyError.
  destruct (hasMSID sourceData), (hasMSID targetData); simpl;
    split; intros H; try reflexivity; try (left; reflexivity); try (right; reflexivity);
    try (destruct H; discriminate).
  (* both sides have the column: the store produced is not the error store *)
  exfalso.
  match type of H with
  | (if ?c then _ else _) = _ => destruct c
  end.
  - apply (f_equal validationError) in H. simpl in H. discriminate.
  - match type of H with
    | (let '(_, _) := ?f in _) = _ => destruct f
    end.
    apply (f_equal currentPhase) in H. simpl in H. discriminate.
Qed.

(** ** Lemmas on [Set], [Map] and the merge loop *)

Lemma set_has_In (l : list Cell) (x : Cell) : set_has l x = true <-> In x l.
Proof.
  unfold set_has. rewrite existsb_exists. split.
  - intros [y [Hy E]]. apply cell_eqb_eq in E. subst. exact Hy.
  - intros Hx. exists x. split; [exact Hx | apply cell_eqb_refl].
Qed.

Lemma set_has_app (a b : list Cell) (x : Cell) :
  set_has (app a b) x = set_has a x || set_has b x.
Proof. unfold set_has. apply existsb_app. Qed.

Lemma new_Set_fold (xs : list Cell) : new_Set xs = fold_left set_step xs [].
Proof. reflexivity. Qed.

Lemma set_has_fold (ys acc : list Cell) (x : Cell) :
  set_has (fold_left set_step ys acc) x = set_has acc x || set_has ys x.
Proof.
  revert acc. induction ys as [|y ys IH]; intros acc; simpl.
  - rewrite orb_false_r. reflexivity.
  - rewrite IH. unfold set_step. destruct (set_has acc y) eqn:Ey.
    + destruct (cell_eqb x y) eqn:Exy; simpl; [|reflexivity].
      apply cell_eqb_eq in Exy. subst. rewrite Ey. reflexivity.
    + rewrite set_has_app. simpl. rewrite orb_false_r, orb_assoc. reflexivity.
Qed.

Lemma set_has_new_Set (ys : list Cell) (x : Cell) : set_has (new_Set ys) x = set_has ys x.
Proof. rewrite new_Set_fold, set_has_fold. reflexivity. Qed.

Lemma filter_filter_and {A : Type} (f g : A -> bool) (l : list A) :
  filter f (filter g l) = filter (fun x => g x && f x) l.
Proof.
  induction l as [|x l IH]; simpl; [reflexivity|].
  destruct (g x); simpl; [destruct (f x); simpl|]; rewrite IH; reflexivity.
Qed.

Lemma set_fold_split (ys acc : list Cell) :
  fold_left set_step ys acc = app acc (filter (fun y => negb (set_has acc y)) (new_Set ys)).
Proof.
  revert acc. induction ys as [|y ys IH]; intros acc.
  - rewrite app_nil_r. reflexivity.
  - rewrite new_Set_fold. cbn [fold_left].
    assert (E0 : set_step [] y = [y]) by reflexivity. rewrite E0.
    rewrite (IH [y]), IH.
    destruct (set_has acc y) eqn:Ey.
    + assert (Es : set_step acc y = acc) by (unfold set_step; rewrite Ey; reflexivity).
      rewrite Es, filter_app. simpl. rewrite Ey. simpl. f_equal.
      rewrite filter_filter_and. apply filter_ext.
      intros z. destruct (cell_eqb z y) eqn:Ez; simpl; [|reflexivity].
      apply cell_eqb_eq in Ez. subst. rewrite Ey. reflexivity.
    + assert (Es : set_step acc y = app acc [y])
        by (unfold set_step; rewrite Ey; reflexivity).
      rewrite Es, filter_app. simpl. rewrite Ey. simpl.
      rewrite <- app_assoc. simpl. f_equal. f_equal.
      rewrite filter_filter_and. apply filter_ext.
      intros z. rewrite set_has_app. simpl. rewrite orb_false_r.
      rewrite negb_orb. apply andb_comm.
Qed.

(** The insertion order of [new Set(xs ++ ys)]. *)
Lemma new_Set_app (xs ys : list Cell) :
  new_Set (app xs ys) = app (new_Set xs) (filter (fun y => negb (set_has xs y)) (new_Set ys)).
Proof.
  unfold new_Set at 1. rewrite fold_left_app. fold (new_Set xs).
  change (fun s x => if set_has s x then s else app s [x]) with set_step.
  rewrite set_fold_split. rewrite new_Set_fold. f_equal. apply filter_ext.
  intros y. rewrite <- new_Set_fold, set_has_new_Set. reflexivity.
Qed.

Lemma filter_none {A : Type} (f : A -> bool) (l : list A) :
  (forall x, In x l -> f x = false) -> filter f l = [].
Proof.
  induction l as [|x l IH]; intros H; simpl; [reflexivity|].
  rewrite (H x (or_introl eq_refl)). apply IH. intros y Hy. apply H. right. exact Hy.
Qed.

Lemma map_get_sound (k : Cell) (l : list DataRow) (acc : option DataRow) :
  (forall r, acc = Some r -> MSID r = k) ->
  forall r, fold_left (map_step k) (map (fun row => (MSID row, row)) l) acc = Some r ->
  MSID r = k.
Proof.
  revert acc. induction l as [|x l IH]; intros acc Hacc r H; cbn [map fold_left] in H.
  - exact (Hacc r H).
  - apply (IH (map_step k acc (MSID x, x))); [|exact H].
    intros r' Hr'. unfold map_step in Hr'. cbn [fst snd] in Hr'.
    destruct (cell_eqb (MSID x) k) eqn:E.
    + injection Hr' as <-. apply cell_eqb_eq. exact E.
    + exact (Hacc r' Hr').
Qed.

Lemma map_get_complete (k : Cell) (l : list DataRow) (acc : option DataRow) :
  In k (map MSID l) \/ acc <> None ->
  fold_left (map_step k) (map (fun row => (MSID row, row)) l) acc <> None.
Proof.
  revert acc. induction l as [|x l IH]; intros acc H; simpl.
  - destruct H as [[]|H]; exact H.
  - apply IH. unfold map_step; simpl.
    destruct (cell_eqb (MSID x) k) eqn:E; [right; discriminate|].
    destruct H as [[Hx|Hl]|H]; [|left; exact Hl|right; exact H].
    subst. rewrite cell_eqb_refl in E. discriminate.
Qed.

Lemma map_get_unfold {A : Type} (entries : list (Cell * A)) (k : Cell) :
  map_get entries k = fold_left (map_step k) entries None.
Proof. reflexivity. Qed.

Lemma check_empty_validationError (side : string) (row : DataRow) (s : Store) :
  validationError (check_empty side row s) = validationError s.
Proof.
  unfold check_empty. generalize (MSID row) as m. intros m.
  revert s. induction row as [|e row IH]; intros s; simpl; [reflexivity|].
  rewrite IH. destruct (is_empty_cell (snd e)); reflexivity.
Qed.

Lemma merge_fold (sm : list (Cell * DataRow)) (tgt : list DataRow) :
  (forall t, In t tgt -> map_get sm (MSID t) <> None) ->
  forall merged s, exists joined s',
    fold_left (merge_step sm) tgt (merged, s) = (app merged joined, s') /\
    map target joined = tgt /\
    Forall (fun j => map_get sm (MSID (target j)) = Some (source j)) joined /\
    validationError s' = validationError s.
Proof.
  induction tgt as [|t tgt IH]; intros Hall merged s.
  - exists [], s. rewrite app_nil_r. repeat split; constructor.
  - cbn [fold_left]. unfold merge_step at 2.
    destruct (map_get sm (MSID t)) as [r|] eqn:Er;
      [|exfalso; exact (Hall t (or_introl eq_refl) Er)].
    destruct (IH (fun t' Ht' => Hall t' (or_intror Ht'))
                 (app merged [mkJoined r t])
                 (check_empty "TARGET" t (check_empty "SOURCE" r s)))
      as [joined [s' [Hf [Hmap [Hfa Hv]]]]].
    exists (mkJoined r t :: joined), s'.
    rewrite Hf, <- app_assoc. split; [reflexivity|]. split; [simpl; f_equal; exact Hmap|].
    split; [constructor; [exact Er | exact Hfa]|].
    rewrite Hv, !check_empty_validationError. reflexivity.
Qed.

Lemma hasMSID_parity_filter (xs ys : list Cell) :
  (forall x, In x xs -> In x ys) ->
  filter (fun id => negb (set_has (new_Set ys) id)) (new_Set xs) = [].
Proof.
  intros H. apply filter_none. intros x Hx.
  apply set_has_In in Hx. rewrite set_has_new_Set in Hx. apply set_has_In in Hx.
  rewrite set_has_new_Set. apply H in Hx. apply set_has_In in Hx. rewrite Hx. reflexivity.
Qed.

(** C5. When both row sets have the MSID column in their first row and every
    key of each side appears on the other, the join succeeds: the phase
    moves to KPI_CONFIG, the merged list has one record per target row, in
    the target order, every record pairs a source row with the same MSID as
    its target row, and no validation error is raised. *)
Theorem join_complete (sourceData targetData : list DataRow) (s : Store)
  (Hs : hasMSID sourceData = true) (Ht : hasMSID targetData = true)
  (Hst : forall r, In r sourceData -> exists t, In t targetData /\ MSID t = MSID r)
  (Hts : forall t, In t targetData -> exists r, In r sourceData /\ MSID r = MSID t) :
  exists merged s',
    validateAndMergeData (Some sourceData) (Some targetData) s
      = setPhase KPI_CONFIG (setMergedData merged s') /\
    List.length merged = List.length targetData /\
    map target merged = targetData /\
    Forall (fun j => MSID (source j) = MSID (target j)) merged /\
    validationError s' = validationError s.
Proof.
  unfold validateAndMergeData. rewrite Hs, Ht. simpl negb. cbn [orb].
  rewrite (hasMSID_parity_filter (map MSID sourceData) (map MSID targetData)).
  2:{ intros x Hx. apply in_map_iff in Hx. destruct Hx as [r [<- Hr]].
      destruct (Hst r Hr) as [t [Ht' E]]. rewrite <- E. apply in_map. exact Ht'. }
  rewrite (hasMSID_parity_filter (map MSID targetData) (map MSID sourceData)).
  2:{ intros x Hx. apply in_map_iff in Hx. destruct Hx as [t [<- Ht']].
      destruct (Hts t Ht') as [r [Hr E]]. rewrite <- E. apply in_map. exact Hr. }
  cbn [List.length Nat.ltb Nat.leb orb].
  destruct (merge_fold (map (fun row => (MSID row, row)) sourceData) targetData) with (merged := @nil Joined) (s := s)
    as [joined [s' [Hf [Hmap [Hfa Hv]]]]].
  { intros t Hin. rewrite map_get_unfold. apply map_get_complete. left.
    destruct (Hts t Hin) as [r [Hr E]]. rewrite <- E. apply in_map. exact Hr. }
  rewrite Hf. exists joined, s'. split; [reflexivity|].
  split; [rewrite <- Hmap, length_map; reflexivity|].
  split; [exact Hmap|]. split; [|exact Hv].
  eapply Forall_impl; [|exact Hfa]. intros j Hj.
  cbv beta in Hj. rewrite map_get_unfold in Hj.
  eapply map_get_sound; [|exact Hj]. intros r Hr; discriminate.
Qed.

(** C5 witness. *)
Lemma join_complete_witness :
  exists merged s',
    validateAndMergeData (Some [rowA; rowB]) (Some [rowB; rowA]) emptyStore
      = setPhase KPI_CONFIG (setMergedData merged s') /\
    List.length merged = 2%nat /\ map target merged = [rowB; rowA].
Proof.
  destruct (join_complete [rowA; rowB] [rowB; rowA] emptyStore eq_refl eq_refl
     ltac:(intros r [<-|[<-|[]]]; [exists rowA | exists rowB]; split;
           [simpl; tauto | reflexivity | simpl; tauto | reflexivity])
     ltac:(intros t [<-|[<-|[]]]; [exists rowB | exists rowA]; split;
           [simpl; tauto | reflexivity | simpl; tauto | reflexivity]))
    as [merged [s' [H1 [H2 [H3 _]]]]].
  exists merged, s'. split; [exact H1 | split; [exact H2 | exact H3]].
Defined.

Lemma ltb_length_In {A : Type} (l : list A) (x : A) : In x l -> Nat.ltb 0 (List.length l) = true.
Proof. destruct l; [intros []|reflexivity]. Qed.

Lemma parity_details_union (xs ys : list Cell) :
  app (map (fun id => "MSID " ++ render_cell id ++ ": Missing in TARGET_OUTPUT")
         (filter (fun id => negb (set_has (new_Set ys) id)) (new_Set xs)))
      (map (fun id => "MSID " ++ render_cell id ++ ": Missing in SOURCE_INPUT")
         (filter (fun id => negb (set_has (new_Set xs) id)) (new_Set ys)))
  = map (parity_detail xs) (filter (offending xs ys) (new_Set (app xs ys))).
Proof.
  rewrite new_Set_app, filter_app, map_app. f_equal.
  - rewrite (filter_ext_in (offending xs ys) (fun id => negb (set_has (new_Set ys) id))).
    + apply map_ext_in. intros k Hk. apply filter_In in Hk. destruct Hk as [Hk _].
      apply set_has_In in Hk. rewrite set_has_new_Set in Hk.
      unfold parity_detail. rewrite Hk. reflexivity.
    + intros k Hk. apply set_has_In in Hk. rewrite set_has_new_Set in Hk.
      unfold offending. rewrite Hk, set_has_new_Set. destruct (set_has ys k); reflexivity.
  - rewrite filter_filter_and.
    rewrite (filter_ext_in (fun x => negb (set_has xs x) && offending xs ys x)
               (fun id => negb (set_has (new_Set xs) id))).
    + apply map_ext_in. intros k Hk. apply filter_In in Hk. destruct Hk as [_ Hk].
      rewrite set_has_new_Set in Hk.
      unfold parity_detail. destruct (set_has xs k); [discriminate | reflexivity].
    + intros k Hk. apply set_has_In in Hk. rewrite set_has_new_Set in Hk.
      unfold offending. rewrite Hk, set_has_new_Set.
      destruct (set_has xs k); reflexivity.
Qed.

(** C6 (counterexample). A key present on one side only does not always
    give a parity error: with an empty target set the key column check fails
    first, and the error is MISSING_MSID_COLUMN naming TARGET_OUTPUT. *)
Lemma empty_target_not_parity_error :
  validationError
    (validateAndMergeData (Some [[("MSID", CStr "A")]]) (Some []) emptyStore)
  = Some (mkValidationError MISSING_MSID_COLUMN
            "MSID column not found in TARGET_OUTPUT file." None).
Proof. reflexivity. Qed.

(** C6 (amended). When a side is empty or lacks the MSID column in its
    first row, [validateAndMergeData] fails with MISSING_MSID_COLUMN (phase
    ERROR, merged data left as it was), whatever the keys. When both sets
    have the MSID column in their first row and some key occurs on one side
    only, it fails with MSID_PARITY_ERROR (phase ERROR, merged data left as
    it was) and its details list every key present on exactly one side, each
    tagged with the side it is missing from, in the order of first
    occurrence in the source keys followed by the target keys. *)
Theorem parity_mismatch_report (sourceData targetData : list DataRow) (s : Store) :
  ((sourceData = [] \/ has_prop "MSID" (hd [] sourceData) = false \/
    targetData = [] \/ has_prop "MSID" (hd [] targetData) = false) ->
     validateAndMergeData (Some sourceData) (Some targetData) s =
       setPhase ERROR
         (setValidationError
            (Some (mkValidationError MISSING_MSID_COLUMN (missing_msg (hasMSID sourceData)) None))
            s) /\
     mergedData (validateAndMergeData (Some sourceData) (Some targetData) s) = mergedData s) /\
  (hasMSID sourceData = true -> hasMSID targetData = true ->
   (exists k, (In k (map MSID sourceData) /\ ~ In k (map MSID targetData)) \/
              (In k (map MSID targetData) /\ ~ In k (map MSID sourceData))) ->
   validateAndMergeData (Some sourceData) (Some targetData) s =
    setPhase ERROR
      (setValidationError
         (Some (mkValidationError MSID_PARITY_ERROR parity_msg
                  (Some (map (parity_detail (map MSID sourceData))
                           (filter (offending (map MSID sourceData) (map MSID targetData))
                              (new_Set (app (map MSID sourceData) (map MSID targetData))))))))
         s) /\
   mergedData (validateAndMergeData (Some sourceData) (Some targetData) s) = mergedData s).
Proof.
  split.
  { intros Hmiss.
    assert (Hno : hasMSID sourceData = false \/ hasMSID targetData = false).
    { destruct sourceData as [|r rs], targetData as [|r' rs']; simpl in *; auto.
      destruct Hmiss as [H|[H|[H|H]]]; auto; discriminate. }
    assert (E : validateAndMergeData (Some sourceData) (Some targetData) s =
       setPhase ERROR
         (setValidationError
            (Some (mkValidationError MISSING_MSID_COLUMN (missing_msg (hasMSID sourceData)) None))
            s)).
    { unfold validateAndMergeData.
      destruct Hno as [H|H]; rewrite H; [reflexivity|].
      destruct (hasMSID sourceData); reflexivity. }
    split; [exact E | rewrite E; reflexivity]. }
  intros Hs Ht Hmis.
  assert (E : validateAndMergeData (Some sourceData) (Some targetData) s =
    setPhase ERROR
      (setValidationError
         (Some (mkValidationError MSID_PARITY_ERROR parity_msg
                  (Some (map (parity_detail (map MSID sourceData))
                           (filter (offending (map MSID sourceData) (map MSID targetData))
                              (new_Set (app (map MSID sourceData) (map MSID targetData))))))))
         s)).
  { unfold validateAndMergeData. rewrite Hs, Ht. simpl negb. cbn [orb].
    rewrite <- parity_details_union.
    destruct Hmis as [k [[Hin Hout] | [Hin Hout]]].
    - rewrite (ltb_length_In _ k); [reflexivity|].
      apply filter_In. split.
      + apply set_has_In. rewrite set_has_new_Set. apply set_has_In. exact Hin.
      + rewrite set_has_new_Set. destruct (set_has (map MSID targetData) k) eqn:Ek;
          [apply set_has_In in Ek; contradiction | reflexivity].
    - rewrite (ltb_length_In (filter _ (new_Set (map MSID targetData))) k), orb_true_r;
        [reflexivity|].
      apply filter_In. split.
      + apply set_has_In. rewrite set_has_new_Set. apply set_has_In. exact Hin.
      + rewrite set_has_new_Set. destruct (set_has (map MSID sourceData) k) eqn:Ek;
          [apply set_has_In in Ek; contradiction | reflexivity]. }
  split; [exact E | rewrite E; reflexivity].
Qed.

(** C6 witness: source keys A, B, C against target keys B, C, D. *)
Lemma parity_mismatch_report_witness :
  validateAndMergeData
    (Some [[("MSID", CStr "A")]; [("MSID", CStr "B")]; [("MSID", CStr "C")]])
    (Some [[("MSID", CStr "B")]; [("MSID", CStr "C")]; [("MSID", CStr "D")]])
    emptyStore =
  setPhase ERROR
    (setValidationError
       (Some (mkValidationError MSID_PARITY_ERROR parity_msg
                (Some ["MSID A: Missing in TARGET_OUTPUT"; "MSID D: Missing in SOURCE_INPUT"])))
       emptyStore).
Proof.
  etransitivity; [apply (proj1 (proj2 (parity_mismatch_report
    [[("MSID", CStr "A")]; [("MSID", CStr "B")]; [("MSID", CStr "C")]]
    [[("MSID", CStr "B")]; [("MSID", CStr "C")]; [("MSID", CStr "D")]]
    emptyStore) eq_refl eq_refl
    ltac:(exists (CStr "A"); left; split; [simpl; tauto | simpl; intros [H|[H|[H|[]]]]; discriminate])))|].
  reflexivity.
Defined.

Lemma filter_kpi_nodup (k : Z) (l : list ScoreEntry) :
  NoDup (map kpiId l) ->
  filter (fun s => Z.eqb (kpiId s) k) l =
  match find (fun s => Z.eqb (kpiId s) k) l with Some s => [s] | None => [] end.
Proof.
  induction l as [|x l IH]; intros Hnd; simpl; [reflexivity|].
  inversion Hnd as [|? ? Hnotin Hnd']; subst.
  destruct (Z.eqb (kpiId x) k) eqn:Ex; [|exact (IH Hnd')].
  f_equal. apply filter_none. intros y Hy. destruct (Z.eqb (kpiId y) k) eqn:Ey; [|reflexivity].
  exfalso. apply Hnotin. apply Z.eqb_eq in Ex, Ey. rewrite Ex, <- Ey. apply in_map. exact Hy.
Qed.

Lemma or_zero_pos (q : Q) :
  Qlt_bool 0 (or_zero q) = Qlt_bool 0 q /\ (Qlt_bool 0 q = true -> or_zero q = q).
Proof.
  unfold or_zero. destruct (Qeq_bool q 0) eqn:E; [|split; reflexivity].
  apply Qeq_bool_iff in E. unfold Qlt_bool.
  assert (Hle : Qle_bool q 0 = true) by (apply Qle_bool_iff; rewrite E; apply Qle_refl).
  rewrite Hle. split; [reflexivity | discriminate].
Qed.

Lemma positive_scores_route (k : Z) (results : list EvaluationResult) :
  (forall r, In r results -> NoDup (map kpiId (scores r))) ->
  filter (fun s => Qlt_bool 0 s) (map (find_score k) results) =
  filter (fun s => Qlt_bool 0 s)
    (map score (flat_map (fun r => filter (fun s => Z.eqb (kpiId s) k) (scores r)) results)).
Proof.
  induction results as [|r results IH]; intros Hu; simpl; [reflexivity|].
  rewrite map_app, filter_app, <- IH by (intros r' Hr'; apply Hu; right; exact Hr').
  rewrite (filter_kpi_nodup k (scores r)) by (apply Hu; left; reflexivity).
  unfold find_score. destruct (find (fun s => Z.eqb (kpiId s) k) (scores r)) as [s|]; simpl.
  - destruct (or_zero_pos (score s)) as [H1 H2]. rewrite H1.
    destruct (Qlt_bool 0 (score s)) eqn:Ep; [rewrite (H2 eq_refl)|]; reflexivity.
  - reflexivity.
Qed.

(** C4. For results whose entries carry each KPI id at most once (one score
    entry per requested KPI), the [averageScore] of a KPI is the sum of its
    scores greater than 0 divided by their number, and 0 when there is none;
    the [mean] of [summaryStats] is the same value (over every entry of the
    KPI). Scores 4, 0, 5 average to 4.5. *)
Theorem kpi_average_excludes_failures (results : list EvaluationResult) (kpi : KPI)
  (Huniq : forall r, In r results -> NoDup (map kpiId (scores r))) :
  let valid := filter (fun s => Qlt_bool 0 s)
                 (map score (flat_map (fun r => filter (fun s => Z.eqb (kpiId s) (kpi_id kpi))
                                                   (scores r)) results)) in
  let avg := match valid with
             | [] => 0
             | _ => Qsum valid / inject_Z (Z.of_nat (List.length valid))
             end in
  kpi_average results kpi = avg /\
  (results <> [] ->
     summaryStats (Some results) [kpi] = [mkSummaryStat (kpi_id kpi) avg (List.length valid)]) /\
  kpi_average [one_score "1" 4; one_score "2" 0; one_score "3" 5] kpi1 == 9#2.
Proof.
  intros valid avg. split; [|split].
  - unfold kpi_average. rewrite positive_scores_route by exact Huniq.
    fold valid. unfold avg. destruct valid; reflexivity.
  - intros Hne. destruct results as [|r rs]; [contradiction|].
    change (summaryStats (Some (r :: rs)) [kpi]) with
      [match valid with
       | [] => mkSummaryStat (kpi_id kpi) 0 0
       | _ => mkSummaryStat (kpi_id kpi)
                (Qsum valid / inject_Z (Z.of_nat (List.length valid))) (List.length valid)
       end].
    unfold avg. clearbody valid. destruct valid; reflexivity.
  - reflexivity.
Qed.

(** C4 witness. *)
Lemma kpi_average_excludes_failures_witness :
  kpi_average [one_score "1" 4; one_score "2" 0; one_score "3" 5] kpi1 = (4 + 5) / 2.
Proof.
  destruct (kpi_average_excludes_failures [one_score "1" 4; one_score "2" 0; one_score "3" 5] kpi1
    ltac:(intros r [<-|[<-|[<-|[]]]]; repeat constructor; simpl; tauto)) as [H _].
  rewrite H. reflexivity.
Defined.

Lemma nth_error_mapi_from {A B : Type} (f : nat -> A -> B) (i : nat) (l : list A) (j : nat) :
  nth_error (mapi_from f i l) j = option_map (f (i + j)%nat) (nth_error l j).
Proof.
  revert i j. induction l as [|x l IH]; intros i j; destruct j; simpl; try reflexivity.
  - rewrite Nat.add_0_r. reflexivity.
  - rewrite IH. f_equal. f_equal. lia.
Qed.

Lemma length_mapi_from {A B : Type} (f : nat -> A -> B) (i : nat) (l : list A) :
  List.length (mapi_from f i l) = List.length l.
Proof. revert i. induction l; intros i; simpl; [reflexivity | rewrite IHl; reflexivity]. Qed.

(** C2. With the Evaluator configured, when the call for the record at
    position [i] of a batch throws or yields no parseable JSON, [POST] still
    answers with one result per record; the result at [i] is the record's
    MSID with one score-0 "Evaluation failed" entry per KPI; every result
    depends only on its own record and its own call, so whatever happens at
    [i] leaves the other results unchanged. *)
Theorem batch_fallback_isolated (JSON_parse : string -> option (list ScoreEntry))
  (random : nat -> Q) (create : nat -> CreateOutcome) (b : list Joined) (ks : list KPI)
  (i : nat) (rec : Joined)
  (Hi : nth_error b i = Some rec)
  (Hfail : parse_response JSON_parse (create i) = None) :
  exists rs,
    POST JSON_parse true random create (Some (mkRequest b ks)) = Json200 rs /\
    List.length rs = List.length b /\
    nth_error rs i =
      Some (mkEvaluationResult (MSID (source rec))
              (map (fun kpi => mkScoreEntry (kpi_id kpi) 0 "Evaluation failed") ks)) /\
    (forall j recj, nth_error b j = Some recj ->
       nth_error rs j = Some (evaluate_record JSON_parse ks recj (create j))) /\
    (forall create', (forall j, j <> i -> create' j = create j) ->
       exists rs', POST JSON_parse true random create' (Some (mkRequest b ks)) = Json200 rs' /\
         List.length rs' = List.length b /\
         forall j, j <> i -> nth_error rs' j = nth_error rs j).
Proof.
  exists (mapi_from (fun i rec => evaluate_record JSON_parse ks rec (create i)) 0 b).
  split; [reflexivity|]. split; [apply length_mapi_from|].
  split; [|split].
  - rewrite nth_error_mapi_from, Hi. simpl. unfold evaluate_record. rewrite Hfail. reflexivity.
  - intros j recj Hj. rewrite nth_error_mapi_from, Hj. reflexivity.
  - intros create' Hsame.
    exists (mapi_from (fun i rec => evaluate_record JSON_parse ks rec (create' i)) 0 b).
    split; [reflexivity|]. split; [apply length_mapi_from|].
    intros j Hj. rewrite !nth_error_mapi_from. simpl. rewrite Hsame by exact Hj. reflexivity.
Qed.

(** C2 witness: a batch of two records whose first call rejects. *)
Lemma batch_fallback_isolated_witness :
  exists rs,
    POST (fun _ => None) true (fun _ => 0) (fun n => match n with O => None | _ => Some [] end)
      (Some (mkRequest [jr1; jr2] [kpi1])) = Json200 rs /\
    nth_error rs 0 = Some (mkEvaluationResult (CStr "A") [mkScoreEntry 1 0 "Evaluation failed"]).
Proof.
  destruct (batch_fallback_isolated (fun _ => None) (fun _ => 0)
              (fun n => match n with O => None | _ => Some [] end) [jr1; jr2] [kpi1] 0 jr1
              eq_refl eq_refl) as [rs [H1 [_ [H3 _]]]].
  exists rs. split; [exact H1 | exact H3].
Defined.

Lemma pick_score_range (ws : list Q) (i : nat) (c r : Q) (sc : Z) :
  (1 <= sc <= 5)%Z -> (i + List.length ws <= 5)%nat ->
  (1 <= pick_score ws i c r sc <= 5)%Z.
Proof.
  revert i c. induction ws as [|w ws IH]; intros i c Hsc Hlen; simpl; [exact Hsc|].
  simpl in Hlen. destruct (Qlt_bool r (c + w)); [lia|].
  apply IH; [exact Hsc | lia].
Qed.

Lemma floor_index (r : Q) :
  0 <= r -> r < 1 -> (0 <= Qfloor (r * inject_Z 3) <= 2)%Z.
Proof.
  intros H0 H1.
  assert (Hx0 : 0 <= r * inject_Z 3) by (change (inject_Z 3) with (3#1); lra).
  assert (Hx3 : r * inject_Z 3 < inject_Z 3) by (change (inject_Z 3) with (3#1); lra).
  pose proof (Qfloor_le (r * inject_Z 3)) as Hle.
  pose proof (Qlt_floor (r * inject_Z 3)) as Hlt.
  split.
  - assert (H : inject_Z 0 < inject_Z (Qfloor (r * inject_Z 3) + 1)).
    { change (inject_Z 0) with 0. apply (Qle_lt_trans _ _ _ Hx0 Hlt). }
    rewrite <- Zlt_Qlt in H. lia.
  - assert (H : inject_Z (Qfloor (r * inject_Z 3)) < inject_Z 3) by
      (apply (Qle_lt_trans _ _ _ Hle Hx3)).
    rewrite <- Zlt_Qlt in H. lia.
Qed.

Section DemoMode.

Variable random : nat -> Q.
Hypothesis random_range : forall n, 0 <= random n /\ random n < 1.

Lemma demo_entry_ok (kpi : KPI) (n : nat) :
  exists e, fst (demo_entry random kpi n) = Some e /\ demo_ok kpi e.
Proof.
  unfold demo_entry, rbind, math_random, rret. cbn [fst].
  pose proof (pick_score_range weights 0 0 (random n) 3 ltac:(lia) ltac:(simpl; lia)) as Hz.
  destruct (random_range (S n)) as [R0 R1].
  pose proof (floor_index (random (S n)) R0 R1) as Hf.
  remember (pick_score weights 0 0 (random n) 3) as z eqn:Ez. clear Ez.
  remember (random (S n)) as r2 eqn:Er2. clear Er2.
  assert (Hcases : z = 1%Z \/ z = 2%Z \/ z = 3%Z \/ z = 4%Z \/ z = 5%Z) by lia.
  assert (Hfc : Qfloor (r2 * inject_Z 3) = 0%Z \/ Qfloor (r2 * inject_Z 3) = 1%Z \/
                Qfloor (r2 * inject_Z 3) = 2%Z) by lia.
  destruct Hcases as [ -> | [ -> | [ -> | [ -> | -> ]]]]; cbn [explanations List.length];
    change (Z.of_nat 3) with 3%Z;
    destruct Hfc as [ -> | [ -> | -> ]]; cbn [Z.to_nat nth_error Pos.to_nat];
    (eexists; split; [reflexivity|]);
    (split; [reflexivity | split; [eexists; split; [reflexivity | lia] | discriminate]]).
Qed.

Lemma rmap_all_some {A B : Type} (f : A -> RandM (option B)) (P : A -> B -> Prop) :
  (forall x n, exists y, fst (f x n) = Some y /\ P x y) ->
  forall l n, exists ys, all_some (fst (rmap f l n)) = Some ys /\ Forall2 P l ys.
Proof.
  intros Hf l. induction l as [|x l IH]; intros n.
  - exists []. split; [reflexivity | constructor].
  - simpl. unfold rbind. destruct (Hf x n) as [y [Hy HP]].
    destruct (f x n) as [o n1] eqn:E. simpl in Hy. subst o.
    destruct (IH n1) as [ys [Hys HPs]].
    destruct (rmap f l n1) as [os n2]. simpl in Hys |- *. rewrite Hys.
    exists (y :: ys). split; [reflexivity | constructor; assumption].
Qed.

Lemma Forall2_map_eq {A B C : Type} (f : A -> C) (g : B -> C) (P : A -> B -> Prop) l1 l2 :
  (forall a b, P a b -> g b = f a) -> Forall2 P l1 l2 -> map g l2 = map f l1.
Proof.
  intros H HF. induction HF; simpl; [reflexivity|]. rewrite (H _ _ H0), IHHF. reflexivity.
Qed.

Lemma Forall2_Forall_r {A B : Type} (P : A -> B -> Prop) (Q : B -> Prop) l1 l2 :
  (forall a b, P a b -> Q b) -> Forall2 P l1 l2 -> Forall Q l2.
Proof. intros H HF. induction HF; constructor; eauto. Qed.

Lemma generateDemoScores_ok (ks : list KPI) (n : nat) :
  exists es, fst (generateDemoScores random ks n) = Some es /\ Forall2 demo_ok ks es.
Proof.
  unfold generateDemoScores, rbind, rret.
  destruct (rmap_all_some (demo_entry random) demo_ok demo_entry_ok ks n) as [es [H1 H2]].
  destruct (rmap (demo_entry random) ks n) as [os n']. simpl in H1 |- *.
  exists es. split; assumption.
Qed.

End DemoMode.

(** C10. Without an Evaluator credential, [POST] never fails and never
    emits the score-0 sentinel: for every batch and KPI list (and [Math.random]
    values in [0, 1)) it answers with one result per batch record, carrying
    the record's source MSID, whose entries are one per requested KPI, in
    order, with an integer score from 1 to 5 and a non-empty explanation. *)
Theorem demo_mode_all_successful (JSON_parse : string -> option (list ScoreEntry))
  (random : nat -> Q) (Hr : forall n, 0 <= random n /\ random n < 1)
  (create : nat -> CreateOutcome) (b : list Joined) (ks : list KPI) :
  exists rs,
    POST JSON_parse false random create (Some (mkRequest b ks)) = Json200 rs /\
    map msid rs = map (fun j => MSID (source j)) b /\
    Forall (fun r =>
      map kpiId (scores r) = map kpi_id ks /\
      Forall (fun e => (exists z, score e = inject_Z z /\ (1 <= z <= 5)%Z) /\
                       explanation e <> "") (scores r)) rs.
Proof.
  set (P := fun (j : Joined) (r : EvaluationResult) =>
              msid r = MSID (source j) /\ Forall2 (demo_ok) ks (scores r)).
  destruct (rmap_all_some
    (fun j => sc <-- generateDemoScores random ks ;;
              rret (match sc with
                    | Some sc => Some (mkEvaluationResult (MSID (source j)) sc)
                    | None => None
                    end)) P) with (l := b) (n := 0%nat) as [rs [Hrs HP]].
  { intros j n. unfold rbind, rret.
    destruct (generateDemoScores_ok random Hr ks n) as [es [Hes Hok]].
    destruct (generateDemoScores random ks n) as [o n'] eqn:E. simpl in Hes. subst o.
    exists (mkEvaluationResult (MSID (source j)) es). split; [reflexivity|].
    split; [reflexivity | exact Hok]. }
  exists rs. unfold POST. cbn [negb batch kpis]. rewrite Hrs. split; [reflexivity|].
  split.
  - apply (Forall2_map_eq (fun j => MSID (source j)) msid P b rs);
      [intros j r [H _]; exact H | exact HP].
  - apply (Forall2_Forall_r P _ b rs); [|exact HP].
    intros j r [_ Hok]. split.
    + apply (Forall2_map_eq kpi_id kpiId demo_ok ks (scores r));
        [intros k e [H _]; exact H | exact Hok].
    + apply (Forall2_Forall_r demo_ok _ ks (scores r)); [|exact Hok].
      intros k e [_ [Hs He]]. split; assumption.
Qed.

(** C10 witness: [Math.random] constantly 1/2. *)
Lemma demo_mode_all_successful_witness :
  exists rs,
    POST (fun _ => None) false (fun _ => 1#2) (fun _ => None)
      (Some (mkRequest [jr1; jr2] [kpi1])) = Json200 rs /\
    map msid rs = [CStr "A"; CStr "B"].
Proof.
  destruct (demo_mode_all_successful (fun _ => None) (fun _ => 1#2)
              ltac:(intros n; split; [apply Qle_bool_iff | apply Qnot_le_lt; intros H;
                                      apply Qle_bool_iff in H]; reflexivity || discriminate)
              (fun _ => None) [jr1; jr2] [kpi1]) as [rs [H1 [H2 _]]].
  exists rs. split; [exact H1 | exact H2].
Defined.

(** ** The bulk loop *)

Lemma batches_from_concat {A : Type} (l : list A) (fuel i : nat) :
  (List.length l - i <= fuel * BATCH_SIZE)%nat ->
  List.concat (batches_from fuel i l) = skipn i l.
Proof.
  revert i. induction fuel as [|f IH]; intros i H; simpl.
  - symmetry. apply skipn_all2. simpl in H. lia.
  - destruct (Nat.ltb i (List.length l)) eqn:E.
    + apply Nat.ltb_lt in E. simpl. rewrite IH by (unfold BATCH_SIZE in *; lia).
      unfold slice. replace (i + BATCH_SIZE - i)%nat with BATCH_SIZE by lia.
      rewrite <- (firstn_skipn BATCH_SIZE (skipn i l)) at 2.
      rewrite skipn_skipn, Nat.add_comm. reflexivity.
    + apply Nat.ltb_ge in E. symmetry. apply skipn_all2. exact E.
Qed.

Lemma make_batches_concat {A : Type} (l : list A) : List.concat (make_batches l) = l.
Proof.
  unfold make_batches. rewrite batches_from_concat; [reflexivity|].
  unfold BATCH_SIZE. lia.
Qed.

Lemma process_batches_concat
  (step : FetchResult -> list EvaluationResult -> list EvaluationResult)
  (Hstep : forall r acc, step r acc = app acc (step r []))
  (fetch : nat -> list Joined -> FetchResult) (bs : list (list Joined)) :
  forall i acc,
  process_batches step fetch i bs acc =
  app acc (List.concat (mapi_from (fun k b => step (fetch k b) []) i bs)).
Proof.
  induction bs as [|b bs IH]; intros i acc; simpl.
  - rewrite app_nil_r. reflexivity.
  - rewrite IH, Hstep, app_assoc. reflexivity.
Qed.

Lemma page_batch_step_app (r : FetchResult) (acc : list EvaluationResult) :
  page_batch_step r acc = app acc (page_batch_step r []).
Proof.
  destruct r as [|[] [rs|]]; simpl; try rewrite app_nil_r; reflexivity.
Qed.

Lemma part003_batch_step_app (r : FetchResult) (acc : list EvaluationResult) :
  part003_batch_step r acc = app acc (part003_batch_step r []).
Proof.
  destruct r as [|[] [rs|]]; simpl; try (rewrite app_nil_r; reflexivity);
    destruct (Nat.ltb 0 (List.length rs)); simpl; try rewrite app_nil_r; reflexivity.
Qed.

Lemma concat_mapi_msids (f : nat -> list Joined -> list EvaluationResult) (i : nat)
  (bs : list (list Joined)) :
  (forall k b, map msid (f k b) = map (fun j => MSID (source j)) b) ->
  map msid (List.concat (mapi_from f i bs)) = map (fun j => MSID (source j)) (List.concat bs).
Proof.
  revert i. induction bs as [|b bs IH]; intros i H; simpl; [reflexivity|].
  rewrite !map_app, H, IH by exact H. reflexivity.
Qed.

(** The msids the route answers with are those of the batch records. *)
Lemma route_msids (JSON_parse : string -> option (list ScoreEntry)) (ks : list KPI)
  (create : nat -> CreateOutcome) (i : nat) (b : list Joined) :
  map msid (mapi_from (fun k rec => evaluate_record JSON_parse ks rec (create k)) i b)
  = map (fun j => MSID (source j)) b.
Proof.
  revert i. induction b as [|j b IH]; intros i; simpl; [reflexivity|].
  rewrite IH. f_equal. unfold evaluate_record.
  destruct (parse_response JSON_parse (create i)); reflexivity.
Qed.

(** C1 (counterexample). When the transport call of a batch throws, its
    records are missing from the output: one record in, no result out. *)
Lemma failed_batch_dropped :
  evaluationResults (runEvaluation (fun _ _ => FetchThrows) (setMergedData [jr1] emptyStore))
  = Some [].
Proof. reflexivity. Qed.

(** C1 (amended). For a non-empty merged list, [runEvaluation] of
    [src/app/page.tsx] stores, in batch order, the results returned by the
    batches whose call succeeds (OK status and a results array); a batch
    whose call throws or fails contributes nothing, no fallback is put in
    its place. The batches cover the records in order, so when every batch
    call answers with one result per record in submission order (as the
    route does), the output has exactly one result per input record, in
    input order. *)
Theorem runEvaluation_collects (fetch : nat -> list Joined -> FetchResult) (s : Store)
  (md : list Joined) (Hmd : mergedData s = Some md) (Hne : md <> []) :
  evaluationResults (runEvaluation fetch s) =
    Some (List.concat (mapi_from (fun i b => page_batch_step (fetch i b) []) 0 (make_batches md))) /\
  List.concat (make_batches md) = md /\
  (forall r, r = FetchThrows \/ (exists d, r = FetchResponse false d) \/
             r = FetchResponse true None -> page_batch_step r [] = []) /\
  ((forall i b, exists rs, fetch i b = FetchResponse true (Some rs) /\
                           map msid rs = map (fun j => MSID (source j)) b) ->
   exists rs, evaluationResults (runEvaluation fetch s) = Some rs /\
              map msid rs = map (fun j => MSID (source j)) md).
Proof.
  assert (Hres : evaluationResults (runEvaluation fetch s) =
    Some (List.concat (mapi_from (fun i b => page_batch_step (fetch i b) []) 0 (make_batches md)))).
  { unfold runEvaluation. rewrite Hmd. destruct md as [|j md']; [contradiction|].
    cbn [evaluationResults setPhase setEvaluationResults].
    rewrite (process_batches_concat page_batch_step page_batch_step_app). reflexivity. }
  split; [exact Hres|]. split; [apply make_batches_concat|]. split.
  - intros r [->|[[d ->]| ->]]; reflexivity.
  - intros Hall. eexists. split; [exact Hres|].
    rewrite <- (make_batches_concat md) at 2. apply concat_mapi_msids.
    intros k b. destruct (Hall k b) as [rs [Hf Hm]]. rewrite Hf. exact Hm.
Qed.

(** C1 witness. *)
Lemma runEvaluation_collects_witness :
  exists rs,
    evaluationResults (runEvaluation (fetch_all_rejected [kpi1])
                         (setMergedData [jr1; jr2] emptyStore)) = Some rs /\
    map msid rs = [CStr "A"; CStr "B"].
Proof.
  destruct (runEvaluation_collects (fetch_all_rejected [kpi1]) (setMergedData [jr1; jr2] emptyStore)
              [jr1; jr2] eq_refl ltac:(discriminate)) as [_ [_ [_ H]]].
  destruct H as [rs [H1 H2]].
  { intros i b. eexists. split; [reflexivity|]. apply route_msids. }
  exists rs. split; [exact H1 | exact H2].
Defined.

(** C3 (counterexample). A non-empty input can end with an empty result
    set: in [src/app/page.tsx], when both batch calls of a two-record run
    fail, the stored result set is empty and the run ends in the RESULTS
    phase like any other run. *)
Lemma nonempty_input_zero_results :
  evaluationResults
    (runEvaluation (fun _ _ => FetchResponse false None) (setMergedData [jr1; jr2] emptyStore))
  = Some [] /\
  currentPhase
    (runEvaluation (fun _ _ => FetchResponse false None) (setMergedData [jr1; jr2] emptyStore))
  = RESULTS.
Proof. split; reflexivity. Qed.

(** C3 (amended). An empty (or missing) merged list leaves the store
    unchanged. For a non-empty one, the collected results are the
    concatenation of what the batches returned, which is empty exactly when
    no batch call returns results, so a non-empty input can yield zero
    results. A non-empty collection is stored and the run ends in RESULTS,
    in [src/app/page.tsx] and in the project-less run of
    [src/unnamed/part_003]. In [src/app/page.tsx] an empty collection is
    stored too and the run ends in RESULTS, where [ResultsDisplay] shows its
    error panel "No evaluation results available" in place of the result
    tables: the panel is shown exactly when the collection is empty. *)
Theorem zero_results_handling (fetch : nat -> list Joined -> FetchResult) (s : Store) :
  ((mergedData s = None \/ mergedData s = Some []) ->
     runEvaluation_part003 fetch s = s /\ runEvaluation fetch s = s) /\
  (forall md, mergedData s = Some md -> md <> [] ->
     let allResults3 :=
       List.concat (mapi_from (fun i b => part003_batch_step (fetch i b) []) 0 (make_batches md)) in
     let allResults :=
       List.concat (mapi_from (fun i b => page_batch_step (fetch i b) []) 0 (make_batches md)) in
     (allResults3 <> [] ->
        runEvaluation_part003 fetch s =
          setPhase RESULTS (setEvaluationResults allResults3 (setPhase EVALUATING s))) /\
     evaluationResults (runEvaluation fetch s) = Some allResults /\
     currentPhase (runEvaluation fetch s) = RESULTS /\
     (page_results_view (runEvaluation fetch s) = Some NoResultsErrorPanel <->
        allResults = [])).
Proof.
  split.
  - intros [H|H]; unfold runEvaluation_part003, runEvaluation; rewrite H; split; reflexivity.
  - intros md Hmd Hne allResults3 allResults.
    assert (Hp : process_batches part003_batch_step fetch 0 (make_batches md) [] = allResults3).
    { rewrite (process_batches_concat part003_batch_step part003_batch_step_app). reflexivity. }
    assert (Hq : process_batches page_batch_step fetch 0 (make_batches md) [] = allResults).
    { rewrite (process_batches_concat page_batch_step page_batch_step_app). reflexivity. }
    unfold runEvaluation_part003, runEvaluation. rewrite Hmd.
    destruct md as [|j md']; [contradiction|]. rewrite Hp, Hq.
    split; [|split; [|split]].
    + intros H. destruct (Nat.eqb (List.length allResults3) 0) eqn:E; [|reflexivity].
      apply Nat.eqb_eq, length_zero_iff_nil in E. contradiction.
    + reflexivity.
    + reflexivity.
    + unfold page_results_view. cbn [currentPhase evaluationResults setPhase setEvaluationResults].
      unfold resultsDisplay_view. destruct allResults as [|e es]; simpl.
      * split; reflexivity.
      * split; discriminate.
Qed.

(** C3 witness: a one-record run whose batch call throws ends on the error
    panel. *)
Lemma zero_results_handling_witness :
  page_results_view (runEvaluation (fun _ _ => FetchThrows) (setMergedData [jr1] emptyStore))
  = Some NoResultsErrorPanel.
Proof.
  apply (proj2 (proj2 (proj2 (proj2 (zero_results_handling (fun _ _ => FetchThrows)
                  (setMergedData [jr1] emptyStore)) [jr1] eq_refl ltac:(discriminate))))).
  reflexivity.
Defined.

(** ** The page, the store, the upload and the result views *)

(** ** The store actions *)

Lemma say_fields (es : list string) (s : AppStore.t) :
  HomePage.say es s = AppStore.set [AppStore.FterminalHistory (app (AppStore.terminalHistory s) es)] s.
Proof.
  revert s. induction es as [|e es IH]; intros s.
  - destruct s; cbn. rewrite app_nil_r. reflexivity.
  - cbn [HomePage.say fold_left]. fold (HomePage.say es (AppStore.addTerminalEntry e s)).
    rewrite IH. destruct s; cbn. rewrite <- app_assoc. reflexivity.
Qed.

(** X6. The terminal commands leave the KPIs alone, except [restart], which
    resets them to the four blank KPIs. *)
Theorem terminal_keeps_kpis (put : PutBody -> HomePage.PutOutcome) (now command : string)
  (p : HomePage.Page) :
  AppStore.kpis (HomePage.store (HomePage.handleTerminalCommand put now command p)) =
  if String.eqb (trim (toLowerCase command)) "restart" then blankKPIs
  else AppStore.kpis (HomePage.store p).
Proof.
  destruct p as [s f snt]. unfold HomePage.handleTerminalCommand. cbn [HomePage.store].
  remember (trim (toLowerCase command)) as cmd eqn:Hcmd. clear Hcmd.
  destruct (String.eqb_spec cmd "restart") as [->|Hr].
  { cbn. destruct s; reflexivity. }
  repeat rewrite say_fields.
  destruct (String.eqb cmd "help"); [destruct s; reflexivity|].
  destruct (String.eqb cmd "status"); [destruct s; reflexivity|].
  destruct (String.eqb cmd "drill down on failures" || String.eqb cmd "show failures")%bool;
    [destruct s; reflexivity|].
  destruct (String.eqb cmd "show all"); [destruct s; reflexivity|].
  destruct (String.eqb cmd "clear"); [destruct s; reflexivity|].
  clear Hr.
  destruct (regex_group re_configure cmd) as [g|].
  { unfold HomePage.reconfigure_branch. destruct (_ && _)%bool; rewrite say_fields; destruct s; reflexivity. }
  destruct (regex_group re_evaluate cmd) as [g|].
  { unfold HomePage.reevaluate_branch. cbn [HomePage.store].
    destruct (match AppStore.mergedData s with Some md => _ | None => None end) as [r|].
    - rewrite say_fields. destruct (put _) as [|[|] [res|]]; destruct s; reflexivity.
    - rewrite say_fields. destruct s; reflexivity. }
  destruct (regex_group re_mistake cmd) as [g|]; [destruct s; reflexivity|].
  destruct (regex_group re_wrong cmd) as [g|]; destruct s; reflexivity.
Qed.


(** ** Captures are pieces of the input *)

Lemma star_m_in (mr : list ascii -> list (list ascii * Cap)) :
  (forall s p, In p (mr s) -> cap_in s p) ->
  forall n s p, In p (star_m mr n s) -> cap_in s p.
Proof.
  intros Hmr n. induction n as [|n IH]; intros s p Hp.
  - destruct Hp as [<-|[]]. split; [apply incl_refl|discriminate].
  - cbn [star_m] in Hp. apply in_app_or in Hp as [Hp|[<-|[]]].
    + apply in_flat_map in Hp as [p1 [H1 H2]].
      destruct (Nat.ltb _ _); [|destruct H2].
      apply in_map_iff in H2 as [q [<- Hq]].
      destruct (Hmr _ _ H1) as [Hr1 Hc1]. destruct (IH _ _ Hq) as [Hr2 Hc2].
      split; cbn.
      * eapply incl_tran; eauto.
      * unfold merge_cap. destruct (snd q) as [g'|] eqn:E; intros g Hg.
        -- inversion Hg; subst. eapply incl_tran; [apply Hc2; congruence|exact Hr1].
        -- apply Hc1, Hg.
    + split; [apply incl_refl|discriminate].
Qed.

Lemma matches_in (r : regex) : forall s p, In p (matches r s) -> cap_in s p.
Proof.
  induction r as [c|pr|r1 IH1 r2 IH2|r IH|r IH|r IH]; intros s p Hp; cbn [matches] in Hp.
  - destruct s as [|x s']; [destruct Hp|]. destruct (chr_eq c x); [|destruct Hp].
    destruct Hp as [<-|[]]. split; [intros a Ha; right; exact Ha|discriminate].
  - destruct s as [|x s']; [destruct Hp|]. destruct (pr x); [|destruct Hp].
    destruct Hp as [<-|[]]. split; [intros a Ha; right; exact Ha|discriminate].
  - apply in_flat_map in Hp as [p1 [H1 H2]]. apply in_map_iff in H2 as [q [<- Hq]].
    destruct (IH1 _ _ H1) as [Hr1 Hc1]. destruct (IH2 _ _ Hq) as [Hr2 Hc2].
    split; cbn.
    + eapply incl_tran; eauto.
    + unfold merge_cap. destruct (snd q) as [g'|] eqn:E; intros g Hg.
      * inversion Hg; subst. eapply incl_tran; [apply Hc2; congruence|exact Hr1].
      * apply Hc1, Hg.
  - apply in_app_or in Hp as [Hp|[<-|[]]].
    + apply filter_In in Hp as [Hp _]. apply (IH _ _ Hp).
    + split; [apply incl_refl|discriminate].
  - apply (star_m_in _ IH _ _ _ Hp).
  - apply in_map_iff in Hp as [p1 [<- H1]]. destruct (IH _ _ H1) as [Hr1 _].
    split; [exact Hr1|]. cbn. intros g Hg. inversion Hg; subst.
    intros a Ha. rewrite <- (firstn_skipn (List.length s - List.length (fst p1)) s). apply in_or_app; left; exact Ha.
Qed.

Lemma search_in (r : regex) (s : list ascii) (g : list ascii) :
  search r s = Some (Some g) -> incl g s.
Proof.
  induction s as [|x s IH]; intros H; cbn [search] in H.
  - destruct (matches r []) as [|p ps] eqn:E; [discriminate|].
    inversion H. apply (proj2 (matches_in r [] p ltac:(rewrite E; left; reflexivity))). assumption.
  - destruct (matches r (x :: s)) as [|p ps] eqn:E.
    + intros a Ha. right. apply IH; assumption.
    + inversion H. apply (proj2 (matches_in r (x :: s) p ltac:(rewrite E; left; reflexivity))).
      assumption.
Qed.

Lemma regex_group_in (r : regex) (cmd g : string) :
  regex_group r cmd = Some g -> incl (list_ascii_of_string g) (list_ascii_of_string cmd).
Proof.
  unfold regex_group. destruct (search r (list_ascii_of_string cmd)) as [[g'|]|] eqn:E;
    intros H; try discriminate.
  inversion H; subst. rewrite list_ascii_of_string_of_list_ascii.
  apply (search_in r _ _ E).
Qed.

Lemma lower_ascii_not_upper (c : ascii) : is_upper (lower_ascii c) = false.
Proof.
  unfold is_upper, lower_ascii.
  destruct (Nat.leb 65 (nat_of_ascii c) && Nat.leb (nat_of_ascii c) 90)%bool eqn:E.
  - apply andb_true_iff in E as [E1 E2]. apply Nat.leb_le in E1, E2.
    rewrite nat_ascii_embedding by lia.
    apply andb_false_iff. right. apply Nat.leb_gt. lia.
  - exact E.
Qed.

Lemma no_upper_toLowerCase (s : string) : no_upper (toLowerCase s) = true.
Proof.
  unfold no_upper. induction s as [|c s IH]; [reflexivity|].
  cbn [toLowerCase list_ascii_of_string forallb]. rewrite lower_ascii_not_upper, IH. reflexivity.
Qed.

Lemma drop_spaces_incl (l : list ascii) : incl (drop_spaces l) l.
Proof.
  induction l as [|c l IH]; cbn; [apply incl_refl|].
  destruct (is_space c); [apply incl_tl, IH|apply incl_refl].
Qed.

Lemma trim_incl (s : string) : incl (list_ascii_of_string (trim s)) (list_ascii_of_string s).
Proof.
  unfold trim. rewrite list_ascii_of_string_of_list_ascii.
  intros a Ha. apply in_rev in Ha. apply drop_spaces_incl in Ha. apply in_rev in Ha.
  apply drop_spaces_incl in Ha. exact Ha.
Qed.

Lemma no_upper_incl (s t : string) :
  incl (list_ascii_of_string s) (list_ascii_of_string t) -> no_upper t = true -> no_upper s = true.
Proof.
  unfold no_upper. intros Hi Ht. apply forallb_forall. intros c Hc.
  rewrite forallb_forall in Ht. apply Ht, Hi, Hc.
Qed.

(** The [msid] taken from a command has no upper-case letter. *)
Lemma reevaluate_msid_lower (command g : string) :
  regex_group re_evaluate (trim (toLowerCase command)) = Some g -> no_upper (trim g) = true.
Proof.
  intros H. apply (no_upper_incl _ (toLowerCase command)); [|apply no_upper_toLowerCase].
  eapply incl_tran; [apply trim_incl|]. eapply incl_tran; [apply (regex_group_in _ _ _ H)|].
  apply trim_incl.
Qed.


Lemma set_results (fs : list AppStore.Field) (s : AppStore.t) :
  (forall f, In f fs -> match f with AppStore.FevaluationResults _ => False | _ => True end) ->
  AppStore.evaluationResults (AppStore.set fs s) = AppStore.evaluationResults s.
Proof.
  unfold AppStore.set. revert s. induction fs as [|f fs IH]; intros s H; [reflexivity|].
  cbn [fold_left]. rewrite IH by (intros; apply H; right; assumption).
  specialize (H f (or_introl eq_refl)). destruct f, s; cbn; tauto.
Qed.

Lemma say_results es s :
  AppStore.evaluationResults (HomePage.say es s) = AppStore.evaluationResults s.
Proof. rewrite say_fields. destruct s; reflexivity. Qed.

Lemma say_mergedData es s :
  AppStore.mergedData (HomePage.say es s) = AppStore.mergedData s.
Proof. rewrite say_fields. destruct s; reflexivity. Qed.

Lemma say_kpis es s :
  AppStore.kpis (HomePage.say es s) = AppStore.kpis s.
Proof. rewrite say_fields. destruct s; reflexivity. Qed.

Lemma reevaluate_branch_cases put now msid p :
  let p' := HomePage.reevaluate_branch put now msid p in
  (HomePage.sent p' = HomePage.sent p /\
   AppStore.evaluationResults (HomePage.store p') = AppStore.evaluationResults (HomePage.store p)) \/
  (exists md rec,
     AppStore.mergedData (HomePage.store p) = Some md /\ In rec md /\
     MSID (source rec) = CStr msid /\
     HomePage.sent p' = app (HomePage.sent p) [put_for p msid rec] /\
     (AppStore.evaluationResults (HomePage.store p') = AppStore.evaluationResults (HomePage.store p) \/
      exists result, put (put_for p msid rec) = HomePage.PutResponse true (Some result) /\
        AppStore.evaluationResults (HomePage.store p') =
        AppStore.evaluationResults (AppStore.updateEvaluationResult msid result (HomePage.store p)))).
Proof.
  destruct p as [s f snt]. cbn zeta. unfold HomePage.reevaluate_branch. cbn [HomePage.store HomePage.sent].
  destruct (AppStore.mergedData s) as [md|] eqn:Emd.
  2:{ left. split; [reflexivity|]. apply say_results. }
  destruct (find _ md) as [rec|] eqn:Ef.
  2:{ left. split; [reflexivity|]. apply say_results. }
  apply find_some in Ef as [Hin Heq]. apply cell_eqb_eq in Heq.
  right. exists md, rec. split; [reflexivity|]. do 2 (split; [assumption|]).
  unfold put_for. cbn [HomePage.store HomePage.sent]. split; [reflexivity|].
  destruct (put _) as [|[|] [res|]].
  - left. destruct s; reflexivity.
  - right. exists res. split; [reflexivity|]. rewrite say_fields. destruct s; reflexivity.
  - left. rewrite say_fields. destruct s; reflexivity.
  - left. rewrite say_fields. destruct s; reflexivity.
  - left. rewrite say_fields. destruct s; reflexivity.
Qed.

Lemma handle_cases put now command p :
  let cmd := trim (toLowerCase command) in
  let p' := HomePage.handleTerminalCommand put now command p in
  (cmd = "restart" /\ HomePage.sent p' = HomePage.sent p /\
   AppStore.evaluationResults (HomePage.store p') = None) \/
  (HomePage.sent p' = HomePage.sent p /\
   AppStore.evaluationResults (HomePage.store p') = AppStore.evaluationResults (HomePage.store p)) \/
  (exists g, regex_group re_evaluate cmd = Some g /\
     p' = HomePage.reevaluate_branch put now (trim g) p).
Proof.
  cbn zeta. destruct p as [s f snt]. unfold HomePage.handleTerminalCommand. cbn [HomePage.store HomePage.sent].
  remember (trim (toLowerCase command)) as cmd eqn:Hcmd. clear Hcmd.
  destruct (String.eqb_spec cmd "restart") as [->|Hr].
  { left. cbn. split; [reflexivity|]. split; [reflexivity|]. destruct s; reflexivity. }
  right.
  destruct (String.eqb cmd "help"); [left; split; [reflexivity|apply say_results]|].
  destruct (String.eqb cmd "status"); [left; split; [reflexivity|apply say_results]|].
  destruct (String.eqb cmd "drill down on failures" || String.eqb cmd "show failures")%bool;
    [left; split; [reflexivity|apply say_results]|].
  destruct (String.eqb cmd "show all"); [left; split; [reflexivity|apply say_results]|].
  destruct (String.eqb cmd "clear"); [left; split; [reflexivity|destruct s; reflexivity]|].
  destruct (regex_group re_configure cmd) as [g|].
  { left. split; [reflexivity|]. cbn [HomePage.store HomePage.with_store].
    unfold HomePage.reconfigure_branch. destruct (_ && _)%bool; apply say_results. }
  destruct (regex_group re_evaluate cmd) as [g|].
  { right. exists g. split; reflexivity. }
  left. destruct (regex_group re_mistake cmd) as [g|]; [split; [reflexivity|apply say_results]|].
  destruct (regex_group re_wrong cmd) as [g|]; (split; [reflexivity|apply say_results]).
Qed.


(** X5. Hence, when no merged record has an MSID string without upper-case
    letters, no command other than [restart] sends a request or changes the
    evaluation results. *)
Theorem terminal_uppercase_msids_unreachable (put : PutBody -> HomePage.PutOutcome)
  (now command : string) (p : HomePage.Page)
  (Hupper : forall md rec m, AppStore.mergedData (HomePage.store p) = Some md -> In rec md ->
            MSID (source rec) = CStr m -> no_upper m = false)
  (Hcmd : String.eqb (trim (toLowerCase command)) "restart" = false) :
  let p' := HomePage.handleTerminalCommand put now command p in
  HomePage.sent p' = HomePage.sent p /\
  AppStore.evaluationResults (HomePage.store p') = AppStore.evaluationResults (HomePage.store p).
Proof.
  cbn zeta. destruct (handle_cases put now command p) as [[Hr _]|[H|[g [Hg ->]]]].
  { rewrite Hr in Hcmd. discriminate. }
  { exact H. }
  destruct (reevaluate_branch_cases put now (trim g) p) as [H|[md [rec [Hmd [Hin [Hm _]]]]]];
    [exact H|].
  pose proof (reevaluate_msid_lower command g Hg) as Hl.
  rewrite (Hupper md rec (trim g) Hmd Hin Hm) in Hl. discriminate.
Qed.

Lemma terminal_uppercase_msids_unreachable_witness :
  (forall md rec m, AppStore.mergedData (HomePage.store upper_page) = Some md -> In rec md ->
     MSID (source rec) = CStr m -> no_upper m = false) /\
  String.eqb (trim (toLowerCase "re-evaluate msid A1")) "restart" = false /\
  let p' := HomePage.handleTerminalCommand (fun _ => HomePage.PutThrows) "now" "re-evaluate msid A1" upper_page in
  HomePage.sent p' = HomePage.sent upper_page /\
  AppStore.evaluationResults (HomePage.store p') = AppStore.evaluationResults (HomePage.store upper_page).
Proof.
  assert (H : forall md rec m, AppStore.mergedData (HomePage.store upper_page) = Some md -> In rec md ->
     MSID (source rec) = CStr m -> no_upper m = false).
  { intros md rec m Hmd Hin Hm. cbn in Hmd. injection Hmd as <-.
    destruct Hin as [<-|[]]. cbn in Hm. injection Hm as <-. reflexivity. }
  split; [exact H|]. split; [vm_compute; reflexivity|].
  apply (terminal_uppercase_msids_unreachable _ _ _ _ H). vm_compute. reflexivity.
Defined.

(** X7. A terminal command changes the evaluation results only by [restart]
    (to none) or by a re-evaluation request answered ok with a result, which
    is then spliced in by [updateEvaluationResult]. *)
Theorem terminal_results_change (put : PutBody -> HomePage.PutOutcome) (now command : string)
  (p : HomePage.Page) :
  let p' := HomePage.handleTerminalCommand put now command p in
  (trim (toLowerCase command) = "restart" /\ AppStore.evaluationResults (HomePage.store p') = None) \/
  AppStore.evaluationResults (HomePage.store p') = AppStore.evaluationResults (HomePage.store p) \/
  exists b result,
    HomePage.sent p' = app (HomePage.sent p) [b] /\
    put b = HomePage.PutResponse true (Some result) /\
    AppStore.evaluationResults (HomePage.store p') =
      AppStore.evaluationResults (AppStore.updateEvaluationResult (put_msid b) result (HomePage.store p)).
Proof.
  cbn zeta. destruct (handle_cases put now command p) as [[Hr [_ H]]|[[_ H]|[g [Hg ->]]]].
  { left. split; assumption. }
  { right; left. exact H. }
  right.
  destruct (reevaluate_branch_cases put now (trim g) p)
    as [[_ H]|[md [rec [_ [_ [_ [Hs [H|[res [Hput H]]]]]]]]]]; [left; exact H|left; exact H|].
  right. exists (put_for p (trim g) rec), res. repeat split; assumption.
Qed.

(** X8. In live mode, re-evaluating an existing MSID through the PUT endpoint
    either fails when the Evaluator call fails or its answer does not parse
    (results and logs unchanged, the terminal shows the re-evaluation failure,
    never the network error), or splices in the result made of the MSID and
    the parsed scores, logs SUCCESS and reports completion. *)
Theorem live_reevaluation_outcome (JSON_parse : string -> option (list ScoreEntry))
  (random : nat -> Q) (out : CreateOutcome) (now msid : string) (p : HomePage.Page)
  (md : list Joined) (rec : Joined)
  (Hmd : AppStore.mergedData (HomePage.store p) = Some md) (Hin : In rec md)
  (Hm : MSID (source rec) = CStr msid) :
  let s := HomePage.store p in
  let s' := HomePage.store (HomePage.reevaluate_branch (put_transport JSON_parse true random out) now msid p) in
  match parse_response JSON_parse out with
  | None =>
      AppStore.evaluationResults s' = AppStore.evaluationResults s /\
      AppStore.systemLogs s' = AppStore.systemLogs s /\
      AppStore.terminalHistory s' =
        app (AppStore.terminalHistory s)
          [""; "RE-EVALUATING MSID: " ++ msid ++ "..."; "ERROR: Re-evaluation failed"; ""]
  | Some sc =>
      AppStore.evaluationResults s' =
        AppStore.evaluationResults
          (AppStore.updateEvaluationResult msid (mkEvaluationResult (CStr msid) sc) s) /\
      AppStore.systemLogs s' =
        app (AppStore.systemLogs s) [mkSystemLog now SUCCESS ("MSID " ++ msid ++ " re-evaluated")] /\
      AppStore.terminalHistory s' =
        app (AppStore.terminalHistory s)
          [""; "RE-EVALUATING MSID: " ++ msid ++ "...";
           "RE-EVALUATION COMPLETE for MSID: " ++ msid; ""]
  end.
Proof.
  destruct p as [s f snt]. cbn zeta. cbn [HomePage.store] in Hmd |- *.
  unfold HomePage.reevaluate_branch. cbn [HomePage.store]. rewrite Hmd.
  destruct (find (fun m => cell_eqb (MSID (source m)) (CStr msid)) md) as [r|] eqn:Ef.
  2:{ exfalso. pose proof (find_none _ _ Ef rec Hin) as H. cbn beta in H.
      rewrite Hm, cell_eqb_refl in H. discriminate. }
  unfold put_transport, PUT. cbn [negb].
  destruct (parse_response JSON_parse out) as [sc|]; cbn [HomePage.store]; rewrite say_fields;
    destruct s; cbn; rewrite <- ?app_assoc; repeat split; reflexivity.
Qed.

Lemma live_reevaluation_outcome_witness :
  AppStore.mergedData (HomePage.store live_page) =
    Some [mkJoined [("MSID", CStr "a1")] [("MSID", CStr "a1")]] /\
  AppStore.terminalHistory
    (HomePage.store (HomePage.reevaluate_branch (put_transport (fun _ => None) true (fun _ => 0) None)
                       "now" "a1" live_page)) =
    [""; "RE-EVALUATING MSID: a1..."; "ERROR: Re-evaluation failed"; ""].
Proof.
  split; [reflexivity|].
  pose proof (live_reevaluation_outcome (fun _ => None) (fun _ => 0) None "now" "a1" live_page
                [mkJoined [("MSID", CStr "a1")] [("MSID", CStr "a1")]]
                (mkJoined [("MSID", CStr "a1")] [("MSID", CStr "a1")])
                ltac:(reflexivity) ltac:(left; reflexivity) ltac:(reflexivity)) as H.
  cbn zeta in H. destruct H as [_ [_ H]]. exact H.
Defined.

(** X18. Without an Evaluator credential the PUT endpoint always answers
    with the requested MSID and one score per requested KPI, in order, each
    an integer from 1 to 5 with a non-empty explanation. *)
Theorem put_demo_mode_answers (JSON_parse : string -> option (list ScoreEntry))
  (random : nat -> Q) (Hr : forall n, 0 <= random n /\ random n < 1)
  (out : CreateOutcome) (b : PutBody) :
  exists sc,
    PUT JSON_parse false random out (Some b) = PutJson (put_msid b) sc /\
    map kpiId sc = map kpi_id (put_kpis b) /\
    Forall (fun e => (exists z, score e = inject_Z z /\ (1 <= z <= 5)%Z) /\ explanation e <> "") sc.
Proof.
  destruct (generateDemoScores_ok random Hr (put_kpis b) 0) as [es [Hes Hok]].
  exists es. unfold PUT. cbn [negb]. rewrite Hes. split; [reflexivity|]. split.
  - apply (Forall2_map_eq kpi_id kpiId demo_ok (put_kpis b) es); [intros k e [H _]; exact H | exact Hok].
  - apply (Forall2_Forall_r demo_ok _ (put_kpis b) es); [|exact Hok]. intros k e [_ [Hs He]]. split; assumption.
Qed.

Lemma put_demo_mode_answers_witness :
  exists sc,
    PUT (fun _ => None) false (fun _ => 1#2) None
      (Some (mkPutBody [] [] [mkKPI 1 "Accuracy" "d" "ACC"] "a1" "")) = PutJson "a1" sc /\
    map kpiId sc = [1%Z].
Proof.
  destruct (put_demo_mode_answers (fun _ => None) (fun _ => 1#2)
              ltac:(intros n; split; [apply Qle_bool_iff | apply Qnot_le_lt; intros H;
                                      apply Qle_bool_iff in H]; reflexivity || discriminate)
              None (mkPutBody [] [] [mkKPI 1 "Accuracy" "d" "ACC"] "a1" "")) as [sc [H1 [H2 _]]].
  exists sc. split; [exact H1 | exact H2].
Defined.


(** X9. [handleReset]: phase UPLOAD; data, results, summary and mismatch log
    cleared; blank KPIs; empty terminal; failure filter off. The validation
    error, the system logs, the project, the test set and the screen are
    kept. *)
Theorem handleReset_state (p : HomePage.Page) :
  let s := HomePage.store p in
  let p' := HomePage.handleReset p in
  let s' := HomePage.store p' in
  AppStore.currentPhase s' = UPLOAD /\
  AppStore.sourceData s' = None /\ AppStore.targetData s' = None /\
  AppStore.mergedData s' = None /\ AppStore.evaluationResults s' = None /\
  AppStore.evaluationSummary s' = None /\ AppStore.dataMismatchLog s' = [] /\
  AppStore.kpis s' = blankKPIs /\ AppStore.terminalHistory s' = [] /\
  HomePage.showFailuresOnly p' = false /\ HomePage.sent p' = HomePage.sent p /\
  AppStore.validationError s' = AppStore.validationError s /\
  AppStore.systemLogs s' = AppStore.systemLogs s /\
  AppStore.currentProject s' = AppStore.currentProject s /\
  AppStore.currentTestSet s' = AppStore.currentTestSet s /\
  AppStore.currentScreen s' = AppStore.currentScreen s.
Proof. destruct p as [[] f snt]. cbn. repeat split. Qed.

(** X10. [updateKPI] replaces each KPI with the id by its merge with the
    update and keeps the others, in order; an update without an id keeps all
    ids; an id no KPI has changes nothing; only the KPIs change. *)
Theorem updateKPI_shape (id : Z) (u : KPIUpdate) (s : AppStore.t) :
  let ks := AppStore.kpis s in
  let ks' := AppStore.kpis (AppStore.updateKPI id u s) in
  Forall2 (fun k k' => k' = if Z.eqb (kpi_id k) id then spread_kpi k u else k) ks ks' /\
  (upd_id u = None -> map kpi_id ks' = map kpi_id ks) /\
  ((forall k, In k ks -> kpi_id k <> id) -> ks' = ks) /\
  AppStore.updateKPI id u s = AppStore.setKPIs ks' s.
Proof.
  cbn zeta. destruct s as [cp ct sd td md ks er es sc ph il lm sl dm ve th]. cbn.
  split; [|split; [|split]].
  - induction ks as [|k ks IH]; constructor; [reflexivity|exact IH].
  - intros Hu. induction ks as [|k ks IH]; [reflexivity|]. cbn. rewrite IH. f_equal.
    destruct (Z.eqb (kpi_id k) id); [|reflexivity].
    unfold spread_kpi. rewrite Hu. reflexivity.
  - intros Hn. induction ks as [|k ks IH]; [reflexivity|]. cbn.
    rewrite IH by (intros; apply Hn; right; assumption).
    destruct (Z.eqb_spec (kpi_id k) id) as [E|]; [|reflexivity].
    exfalso. exact (Hn k (or_introl eq_refl) E).
  - reflexivity.
Qed.

Lemma pad_kpis_padding (fuel : nat) (l : list KPI) :
  (4 - List.length l <= fuel)%nat -> AppStore.pad_kpis fuel l = app l (padding (List.length l)).
Proof.
  revert l. induction fuel as [|f IH]; intros l H.
  - cbn [AppStore.pad_kpis]. unfold padding. replace (4 - List.length l)%nat with 0%nat by lia.
    cbn [seq map]. rewrite app_nil_r. reflexivity.
  - cbn [AppStore.pad_kpis]. destruct (Nat.ltb_spec (List.length l) 4) as [Hl|Hl].
    + rewrite IH by (rewrite length_app; cbn [List.length]; lia). rewrite <- app_assoc. f_equal.
      rewrite length_app. cbn [List.length]. unfold padding.
      replace (4 - List.length l)%nat with (S (4 - (List.length l + 1)))%nat by lia.
      cbn [seq map app]. rewrite Nat.add_1_r. f_equal. f_equal. lia.
    + unfold padding. replace (4 - List.length l)%nat with 0%nat by lia.
      cbn [seq map]. rewrite app_nil_r. reflexivity.
Qed.

(** X11. [startNewTest] takes the KPIs of the current project when it has
    some: the project's KPIs in order, padded with blank KPIs numbered from
    their count plus one up to 4, whatever the project's kpiNumbers are;
    otherwise the KPIs are unchanged. *)
Theorem startNewTest_kpis (s : AppStore.t) :
  AppStore.kpis (AppStore.startNewTest s) =
  match AppStore.currentProject s with
  | Some p =>
      match project_kpis p with
      | [] => AppStore.kpis s
      | pks => app (map kpi_of_project pks) (padding (List.length pks))
      end
  | None => AppStore.kpis s
  end.
Proof.
  unfold AppStore.startNewTest, AppStore.prefillKPIsFromProject.
  destruct (AppStore.currentProject s) as [p|] eqn:Ep; [|destruct s; reflexivity].
  destruct (project_kpis p) as [|k ks] eqn:Ek; [destruct s; reflexivity|].
  cbn [List.length Nat.ltb Nat.leb].
  rewrite pad_kpis_padding by (rewrite length_map; lia). rewrite length_map.
  destruct s; reflexivity.
Qed.


Lemma has_prop_In (k : string) (o : DataRow) : has_prop k o = true <-> In k (map fst o).
Proof.
  unfold has_prop. rewrite existsb_exists. split.
  - intros [e [He E]]. apply String.eqb_eq in E. subst. apply in_map. exact He.
  - intros Hk. apply in_map_iff in Hk as [e [<- He]]. exists e. split; [exact He|apply String.eqb_refl].
Qed.

Lemma get_prop_obj_set_same (k : string) (v : Cell) (o : DataRow) : get_prop k (obj_set k v o) = v.
Proof.
  induction o as [|[k' v'] o IH]; cbn [get_prop obj_set]; [rewrite String.eqb_refl; reflexivity|].
  destruct (String.eqb_spec k' k); cbn [get_prop]; [rewrite String.eqb_refl; reflexivity|].
  destruct (String.eqb_spec k' k); [contradiction|exact IH].
Qed.

Lemma get_prop_obj_set_other (k k' : string) (v : Cell) (o : DataRow) :
  k' <> k -> get_prop k' (obj_set k v o) = get_prop k' o.
Proof.
  intros Hne. induction o as [|[k0 v0] o IH]; cbn.
  - destruct (String.eqb_spec k k'); [congruence|reflexivity].
  - destruct (String.eqb_spec k0 k) as [->|Hk0]; cbn.
    + destruct (String.eqb_spec k k'); [congruence|reflexivity].
    + destruct (String.eqb k0 k'); [reflexivity|exact IH].
Qed.

Lemma get_prop_obj_delete_other (k k' : string) (o : DataRow) :
  k' <> k -> get_prop k' (obj_delete k o) = get_prop k' o.
Proof.
  intros Hne. unfold obj_delete. induction o as [|[k0 v0] o IH]; cbn; [reflexivity|].
  destruct (String.eqb_spec k0 k) as [->|Hk0]; cbn.
  - destruct (String.eqb_spec k k'); [congruence|exact IH].
  - destruct (String.eqb k0 k'); [reflexivity|exact IH].
Qed.

Lemma has_prop_obj_delete_same (k : string) (o : DataRow) : has_prop k (obj_delete k o) = false.
Proof.
  unfold obj_delete, has_prop. induction o as [|[k0 v0] o IH]; cbn; [reflexivity|].
  destruct (String.eqb_spec k0 k); cbn; [exact IH|].
  destruct (String.eqb_spec k0 k); [contradiction|exact IH].
Qed.

Lemma has_prop_obj_delete_other (k k' : string) (o : DataRow) :
  k' <> k -> has_prop k' (obj_delete k o) = has_prop k' o.
Proof.
  intros Hne. unfold obj_delete, has_prop. induction o as [|[k0 v0] o IH]; cbn; [reflexivity|].
  destruct (String.eqb_spec k0 k) as [->|]; cbn.
  - destruct (String.eqb_spec k k'); [congruence|exact IH].
  - rewrite IH. reflexivity.
Qed.

Lemma has_prop_obj_set_same (k : string) (v : Cell) (o : DataRow) : has_prop k (obj_set k v o) = true.
Proof.
  unfold has_prop. induction o as [|[k0 v0] o IH]; cbn; [rewrite String.eqb_refl; reflexivity|].
  destruct (String.eqb k0 k); cbn; [rewrite String.eqb_refl; reflexivity|].
  rewrite IH. apply orb_true_r.
Qed.

Lemma normalise_rows (mk : string) (Hne : mk <> "MSID") (l : list DataRow) :
  Forall2 (fun r r' =>
    MSID r' = get_prop mk r /\ has_prop "MSID" r' = true /\
    has_prop mk r' = false /\
    forall k, k <> "MSID" -> k <> mk -> get_prop k r' = get_prop k r) l (map (normalise_row mk) l).
Proof.
  induction l as [|x l IH]; cbn [map]; constructor; [|exact IH].
  unfold normalise_row. split; [|split; [|split]].
  - unfold MSID. rewrite get_prop_obj_delete_other by congruence. apply get_prop_obj_set_same.
  - rewrite has_prop_obj_delete_other by congruence. apply has_prop_obj_set_same.
  - apply has_prop_obj_delete_same.
  - intros k Hk1 Hk2. rewrite get_prop_obj_delete_other by exact Hk2.
    apply get_prop_obj_set_other. exact Hk1.
Qed.

Lemma find_some_first {A : Type} (f : A -> bool) (l : list A) (x : A) :
  find f l = Some x ->
  exists pre post, l = app pre (x :: post) /\ Forall (fun y => f y = false) pre /\ f x = true.
Proof.
  induction l as [|y l IH]; cbn [find]; [discriminate|].
  destruct (f y) eqn:Ey.
  - intros [= <-]. exists [], l. split; [reflexivity|]. split; [constructor | exact Ey].
  - intros H. destruct (IH H) as [pre [post [-> [Hpre Hx]]]].
    exists (y :: pre), post. split; [reflexivity|]. split; [constructor; assumption | exact Hx].
Qed.

Lemma processFile_shape (label : string) (data data' : list DataRow) :
  processFile label (inr data) = DataLoaded data' ->
  (data = [] /\ data' = []) \/
  (exists msidKey pre post,
    map fst (hd [] data) = app pre (msidKey :: post) /\
    Forall (fun k => toLowerCase k <> "msid") pre /\
    toLowerCase msidKey = "msid" /\
    ((msidKey = "MSID" /\ data' = data) \/
     (msidKey <> "MSID" /\
      Forall2 (fun r r' =>
        MSID r' = get_prop msidKey r /\ has_prop "MSID" r' = true /\
        has_prop msidKey r' = false /\
        forall k, k <> "MSID" -> k <> msidKey -> get_prop k r' = get_prop k r) data data'))).
Proof.
  intros H.
  unfold processFile in H. destruct data as [|r rs]; [left; injection H as <-; split; reflexivity|].
  right. destruct (find _ (map fst r)) as [mk|] eqn:Ef; [|discriminate].
  apply find_some_first in Ef as [pre [post [Hsplit [Hpre Hl]]]]. apply String.eqb_eq in Hl.
  exists mk, pre, post. split; [exact Hsplit|]. split.
  { eapply Forall_impl; [|exact Hpre]. intros k Hk. apply String.eqb_neq. exact Hk. }
  split; [exact Hl|].
  destruct (String.eqb_spec mk "MSID") as [->|Hne]; injection H as <-.
  - left. split; reflexivity.
  - right. split; [exact Hne|]. exact (normalise_rows mk Hne (r :: rs)).
Qed.

(** X1. [processFile] on parsed rows: an empty file loads as it is; otherwise
    the key column is the first key of the first row that lower-cases to
    [msid] (every key before it lower-cases to something else). When it is
    [MSID] the rows are kept; otherwise every row gets [MSID] set to its
    value under that key (undefined when absent), loses that key and keeps
    every other property. *)
Theorem processFile_normalises (label : string) (data data' : list DataRow)
  (H : processFile label (inr data) = DataLoaded data') :
  (data = [] /\ data' = []) \/
  (exists msidKey pre post,
    map fst (hd [] data) = app pre (msidKey :: post) /\
    Forall (fun k => toLowerCase k <> "msid") pre /\
    toLowerCase msidKey = "msid" /\
    ((msidKey = "MSID" /\ data' = data) \/
     (msidKey <> "MSID" /\
      Forall2 (fun r r' =>
        MSID r' = get_prop msidKey r /\ has_prop "MSID" r' = true /\
        has_prop msidKey r' = false /\
        forall k, k <> "MSID" -> k <> msidKey -> get_prop k r' = get_prop k r) data data'))).
Proof. exact (processFile_shape label data data' H). Qed.

(** X1 witness: with [Msid] before [MSID] in the first row, [Msid] is the
    key column; it replaces the [MSID] value and is removed. *)
Lemma processFile_normalises_witness :
  processFile "SOURCE_INPUT" (inr [[("Msid", CStr "a1"); ("MSID", CStr "b1"); ("q", CStr "x")]]) = DataLoaded [[("MSID", CStr "a1"); ("q", CStr "x")]] /\
  ((([[("Msid", CStr "a1"); ("MSID", CStr "b1"); ("q", CStr "x")]] : list DataRow) = [] /\ ([[("MSID", CStr "a1"); ("q", CStr "x")]] : list DataRow) = []) \/
  (exists msidKey pre post,
    map fst (hd [] [[("Msid", CStr "a1"); ("MSID", CStr "b1"); ("q", CStr "x")]]) = app pre (msidKey :: post) /\
    Forall (fun k => toLowerCase k <> "msid") pre /\
    toLowerCase msidKey = "msid" /\
    ((msidKey = "MSID" /\ [[("MSID", CStr "a1"); ("q", CStr "x")]] = [[("Msid", CStr "a1"); ("MSID", CStr "b1"); ("q", CStr "x")]]) \/
     (msidKey <> "MSID" /\
      Forall2 (fun r r' =>
        MSID r' = get_prop msidKey r /\ has_prop "MSID" r' = true /\
        has_prop msidKey r' = false /\
        forall k, k <> "MSID" -> k <> msidKey -> get_prop k r' = get_prop k r) [[("Msid", CStr "a1"); ("MSID", CStr "b1"); ("q", CStr "x")]] [[("MSID", CStr "a1"); ("q", CStr "x")]])))).
Proof.
  split; [reflexivity|]. apply (processFile_normalises "SOURCE_INPUT"). reflexivity.
Defined.

Lemma processFile_hasMSID (label : string) (data data' : list DataRow) :
  processFile label (inr data) = DataLoaded data' ->
  hasMSID data' = match data with [] => false | _ => true end.
Proof.
  intros H. destruct (processFile_shape label data data' H)
    as [[-> ->]|[mk [pre [post [Hsplit [_ [_ [[-> ->]|[_ HF]]]]]]]]]; [reflexivity| |].
  - destruct data as [|r rs]; [destruct (app_cons_not_nil _ _ _ Hsplit)|]. cbn. apply has_prop_In.
    cbn [hd] in Hsplit. rewrite Hsplit. apply in_or_app. right. left. reflexivity.
  - destruct data as [|r0 rs0]; [destruct (app_cons_not_nil _ _ _ Hsplit)|].
    inversion HF as [|r r' rs rs' Hr Hrest]; subst. destruct Hr as [_ [Hm _]]. exact Hm.
Qed.

Lemma merge_fold_validationError (sm : list (Cell * DataRow)) (tgt : list DataRow)
  (acc : list Joined) (s : Store) :
  validationError (snd (fold_left (merge_step sm) tgt (acc, s))) = validationError s.
Proof.
  revert acc s. induction tgt as [|t tgt IH]; intros acc s; [reflexivity|].
  cbn [fold_left]. unfold merge_step at 2. destruct (map_get sm (MSID t)) as [sr|].
  - rewrite IH. rewrite !check_empty_validationError. reflexivity.
  - apply IH.
Qed.

(** X2. For two files accepted by [processFile], on a store without a
    validation error, [validateAndMergeData] reports MISSING_MSID_COLUMN
    exactly when one of the files was empty: the renaming makes every
    non-empty accepted file pass the key-column check. *)
Theorem loaded_files_missing_msid (l1 l2 : string) (d1 d2 d1' d2' : list DataRow) (s : Store)
  (H1 : processFile l1 (inr d1) = DataLoaded d1')
  (H2 : processFile l2 (inr d2) = DataLoaded d2')
  (Hs : validationError s = None) :
  option_map vtype (validationError (validateAndMergeData (Some d1') (Some d2') s)) =
    Some MISSING_MSID_COLUMN <-> d1 = [] \/ d2 = [].
Proof.
  pose proof (processFile_hasMSID _ _ _ H1) as E1. pose proof (processFile_hasMSID _ _ _ H2) as E2.
  unfold validateAndMergeData. rewrite E1, E2.
  destruct d1 as [|r1 rs1], d2 as [|r2 rs2]; cbn [negb orb];
    try (split; [intros _; (left; reflexivity) || (right; reflexivity)|intros _; reflexivity]).
  split; [|intros [H|H]; discriminate].
  intros H. exfalso. revert H.
  destruct (_ || _)%bool; [cbn; discriminate|].
  destruct (fold_left _ _ _) as [merged s'] eqn:Ef.
  pose proof (merge_fold_validationError
                (map (fun row => (MSID row, row)) d1') d2' [] s) as Hv.
  rewrite Ef in Hv. cbn in Hv |- *. rewrite Hv, Hs. discriminate.
Qed.

Lemma loaded_files_missing_msid_witness :
  processFile "SOURCE_INPUT" (inr loaded_src) = DataLoaded [[("MSID", CStr "a1")]] /\
  processFile "TARGET_OUTPUT" (inr loaded_tgt) = DataLoaded [] /\
  validationError emptyStore = None /\
  option_map vtype (validationError
    (validateAndMergeData (Some [[("MSID", CStr "a1")]]) (Some []) emptyStore)) = Some MISSING_MSID_COLUMN.
Proof.
  split; [reflexivity|]. split; [reflexivity|]. split; [reflexivity|].
  apply (loaded_files_missing_msid "SOURCE_INPUT" "TARGET_OUTPUT" loaded_src loaded_tgt
           _ _ emptyStore eq_refl eq_refl eq_refl).
  right. reflexivity.
Defined.

(** X3. A file that fails to parse, or whose first row has no key that
    lower-cases to [msid], is refused by the upload callback: the validation
    error is MISSING_MSID_COLUMN (also for a parse error) with the message,
    the phase is ERROR, an ERROR log entry is appended and neither data set
    changes. *)
Theorem upload_rejected (now : string) (isSource : bool) (parsed : string + list DataRow)
  (s : AppStore.t) (msg : string)
  (Hrej : parsed = inl msg \/
          exists r rs, parsed = inr (r :: rs) /\
            (forall k, In k (map fst r) -> toLowerCase k <> "msid") /\
            msg = "MSID column not found in " ++ (if isSource then "SOURCE_INPUT" else "TARGET_OUTPUT")) :
  let s' := HomePage.upload now isSource parsed s in
  AppStore.validationError s' = Some (mkValidationError MISSING_MSID_COLUMN msg None) /\
  AppStore.currentPhase s' = ERROR /\
  AppStore.sourceData s' = AppStore.sourceData s /\
  AppStore.targetData s' = AppStore.targetData s /\
  AppStore.systemLogs s' = app (AppStore.systemLogs s) [mkSystemLog now LOG_ERROR msg].
Proof.
  cbn zeta. unfold HomePage.upload.
  assert (Hp : processFile (if isSource then "SOURCE_INPUT" else "TARGET_OUTPUT") parsed = UploadError msg).
  { destruct Hrej as [->|[r [rs [-> [Hk ->]]]]]; [reflexivity|]. cbn.
    destruct (find _ (map fst r)) as [k|] eqn:Ef; [|reflexivity].
    exfalso. apply find_some in Ef as [Hin E]. apply String.eqb_eq in E. exact (Hk k Hin E). }
  rewrite Hp. destruct s; cbn. repeat split.
Qed.

Lemma upload_rejected_witness :
  let s' := HomePage.upload "now" true (inr [[("id", CStr "a1")]]) AppStore.initial in
  AppStore.validationError s' =
    Some (mkValidationError MISSING_MSID_COLUMN "MSID column not found in SOURCE_INPUT" None) /\
  AppStore.currentPhase s' = ERROR /\
  AppStore.sourceData s' = AppStore.sourceData AppStore.initial /\
  AppStore.targetData s' = AppStore.targetData AppStore.initial /\
  AppStore.systemLogs s' =
    app (AppStore.systemLogs AppStore.initial)
      [mkSystemLog "now" LOG_ERROR "MSID column not found in SOURCE_INPUT"].
Proof.
  apply upload_rejected. right. exists [("id", CStr "a1")], []. split; [reflexivity|]. split.
  - intros k [<-|[]]. discriminate.
  - reflexivity.
Defined.


Lemma Qlt_bool_iff (a b : Q) : Qlt_bool a b = true <-> a < b.
Proof.
  unfold Qlt_bool. destruct (Qle_bool b a) eqn:E; cbn; split; intros H; try discriminate.
  - apply Qle_bool_iff in E. exfalso. apply (Qlt_not_le _ _ H E).
  - apply Qle_bool_false in E. exact E.
  - reflexivity.
Qed.

Lemma In_obj_set {A : Type} (k : string) (v : A) (o : list (string * A)) kv :
  In kv (obj_set k v o) -> kv = (k, v) \/ In kv o.
Proof.
  induction o as [|[k0 v0] o IH]; cbn; [intros [H|[]]; left; congruence|].
  destruct (String.eqb k0 k); cbn.
  - intros [H|H]; [left; congruence|right; right; exact H].
  - intros [H|H]; [right; left; exact H|]. destruct (IH H); [left|right; right]; assumption.
Qed.

Lemma obj_set_In_same {A : Type} (k : string) (v : A) (o : list (string * A)) :
  In (k, v) (obj_set k v o).
Proof.
  induction o as [|[k0 v0] o IH]; cbn; [left; reflexivity|].
  destruct (String.eqb k0 k); [left; reflexivity|right; exact IH].
Qed.

Lemma obj_set_In_other {A : Type} (k : string) (v : A) (o : list (string * A)) kv :
  In kv o -> fst kv <> k -> In kv (obj_set k v o).
Proof.
  induction o as [|[k0 v0] o IH]; cbn; [intros []|].
  destruct (String.eqb_spec k0 k) as [->|Hne].
  - intros [<-|H] Hk; [cbn in Hk; contradiction|right; exact H].
  - intros [<-|H] Hk; [left; reflexivity|right; apply IH; assumption].
Qed.

Section FoldSet.
Variable A B : Type.
Variable key : B -> string.
Variable val : B -> A.

Lemma fold_obj_set_from (l : list B) (o : list (string * A)) kv :
  In kv (fold_left (fun o e => obj_set (key e) (val e) o) l o) ->
  In kv o \/ exists e, In e l /\ kv = (key e, val e).
Proof.
  revert o. induction l as [|x l IH]; intros o H; cbn in H; [left; exact H|].
  destruct (IH _ H) as [H1|[e [He ->]]].
  - apply In_obj_set in H1 as [->|H1]; [right; exists x; split; [left|]; reflexivity|left; exact H1].
  - right. exists e. split; [right|]; trivial.
Qed.

Lemma fold_obj_set_keep (l : list B) (o : list (string * A)) kv :
  In kv o -> (forall e, In e l -> key e <> fst kv) ->
  In kv (fold_left (fun o e => obj_set (key e) (val e) o) l o).
Proof.
  revert o. induction l as [|x l IH]; intros o H Hk; cbn; [exact H|].
  apply IH; [|intros e He; apply Hk; right; exact He].
  apply obj_set_In_other; [exact H|]. intros E. apply (Hk x (or_introl eq_refl)). congruence.
Qed.

Lemma fold_obj_set_to (l : list B) (o : list (string * A)) e :
  NoDup (map key l) -> In e l -> In (key e, val e) (fold_left (fun o e => obj_set (key e) (val e) o) l o).
Proof.
  revert o. induction l as [|x l IH]; intros o Hnd He; [destruct He|].
  inversion Hnd as [|? ? Hx Hnd']; subst. cbn.
  destruct He as [<-|He]; [|apply IH; assumption].
  apply fold_obj_set_keep; [apply obj_set_In_same|].
  intros e' He' E. apply Hx. cbn in E. rewrite <- E. apply in_map. exact He'.
Qed.

End FoldSet.

(** X12. With the failure filter, every row shown comes from a result with
    a score below 3, and a result with a score below 3 whose scores have
    distinct display keys is shown; without the filter there is one row per
    result. *)
Theorem detailedResults_failures (ers : list EvaluationResult) (activeKPIs : list KPI) :
  (forall d, In d (detailedResults (Some ers) activeKPIs true) ->
     exists er, In er ers /\ d = detail_row activeKPIs er /\
       exists e, In e (scores er) /\ score e < 3) /\
  (forall er, In er ers -> NoDup (map (kpiKey activeKPIs) (scores er)) ->
     (exists e, In e (scores er) /\ score e < 3) ->
     In (detail_row activeKPIs er) (detailedResults (Some ers) activeKPIs true)) /\
  List.length (detailedResults (Some ers) activeKPIs false) = List.length ers /\
  detailedResults None activeKPIs true = [].
Proof.
  unfold detailedResults. split; [|split; [|split]].
  - intros d Hd. apply filter_In in Hd as [Hd Hf]. apply in_map_iff in Hd as [er [<- Her]].
    exists er. split; [exact Her|]. split; [reflexivity|].
    apply existsb_exists in Hf as [kv [Hkv Hlt]]. apply Qlt_bool_iff in Hlt.
    unfold detail_row in Hkv. cbn [d_scores] in Hkv.
    destruct (fold_obj_set_from _ _ (kpiKey activeKPIs) (fun e => (score e, explanation e)) _ _ _ Hkv)
      as [[]|[e [He ->]]].
    exists e. split; assumption.
  - intros er Her Hnd [e [He Hlt]]. apply filter_In. split; [apply in_map; exact Her|].
    apply existsb_exists. exists (kpiKey activeKPIs e, (score e, explanation e)). split.
    + apply (fold_obj_set_to _ _ (kpiKey activeKPIs) (fun e => (score e, explanation e))); assumption.
    + apply Qlt_bool_iff. exact Hlt.
  - apply length_map.
  - reflexivity.
Qed.


Lemma insert_sorted_In (x y : Q) (l : list Q) : In y (insert_sorted x l) <-> x = y \/ In y l.
Proof.
  induction l as [|z l IH]; cbn; [tauto|].
  destruct (Qle_bool x z); cbn; [tauto|]. rewrite IH. tauto.
Qed.

Lemma insert_sorted_length (x : Q) (l : list Q) : List.length (insert_sorted x l) = S (List.length l).
Proof. induction l as [|z l IH]; cbn; [reflexivity|]. destruct (Qle_bool x z); cbn; lia. Qed.

Lemma sort_numbers_In (l : list Q) (y : Q) : In y (sort_numbers l) <-> In y l.
Proof.
  unfold sort_numbers. induction l as [|x l IH]; cbn; [tauto|].
  rewrite insert_sorted_In, IH. intuition.
Qed.

Lemma sort_numbers_length (l : list Q) : List.length (sort_numbers l) = List.length l.
Proof.
  unfold sort_numbers. induction l as [|x l IH]; cbn; [reflexivity|].
  rewrite insert_sorted_length, IH. reflexivity.
Qed.

Lemma median_of_bounds (l : list Q) (lo hi : Q) :
  l <> [] -> (forall q, In q l -> lo <= q <= hi) -> lo <= median_of l <= hi.
Proof.
  intros Hne Hb. unfold median_of.
  assert (Hn : (0 < List.length l)%nat) by (destruct l; [contradiction|cbn; lia]).
  set (n := List.length l) in *.
  assert (Hmid : (Nat.div n 2 < n)%nat) by (apply Nat.div_lt; lia).
  destruct (Nat.eqb_spec (Nat.modulo n 2) 0) as [Hev|Hodd]; cbn [negb].
  - assert (H1 : (1 <= Nat.div n 2)%nat).
    { destruct (Nat.eq_dec (Nat.div n 2) 0) as [Hz|]; [|lia].
      pose proof (Nat.div_mod n 2 ltac:(lia)) as Hd. rewrite Hz, Hev in Hd. lia. }
    pose proof (Hb _ (nth_In l 0 (ltac:(lia) : (Nat.div n 2 - 1 < List.length l)%nat))) as Ha.
    pose proof (Hb _ (nth_In l 0 Hmid)) as Hc.
    set (a := nth (Nat.div n 2 - 1) l 0) in *. set (c := nth (Nat.div n 2) l 0) in *.
    unfold Qdiv. split.
    + apply (Qmult_le_r _ _ 2); [reflexivity|]. rewrite <- Qmult_assoc.
      setoid_replace (/ 2 * 2) with 1 by reflexivity. rewrite Qmult_1_r. lra.
    + apply (Qmult_le_r _ _ 2); [reflexivity|]. rewrite <- Qmult_assoc.
      setoid_replace (/ 2 * 2) with 1 by reflexivity. rewrite Qmult_1_r. lra.
  - apply Hb, nth_In, Hmid.
Qed.

Lemma summaryMedians_shape (rs : list EvaluationResult) (ks : list KPI) :
  rs <> [] ->
  summaryMedians (Some rs) ks =
  map (fun kpi => match kpi_scores rs kpi with [] => 0 | sc => median_of (sort_numbers sc) end) ks.
Proof. intros H. destruct rs; [contradiction|reflexivity]. Qed.




(** X13. The median of a KPI is 0 when it has no positive score, and
    otherwise lies between any lower and upper bound of its positive
    scores. *)
Theorem summaryMedians_bounds (rs : list EvaluationResult) (ks : list KPI) (Hrs : rs <> []) :
  Forall2 (fun kpi m =>
    (kpi_scores rs kpi = [] /\ m = 0) \/
    (kpi_scores rs kpi <> [] /\
     forall lo hi, (forall q, In q (kpi_scores rs kpi) -> lo <= q <= hi) -> lo <= m <= hi))
    ks (summaryMedians (Some rs) ks).
Proof.
  rewrite (summaryMedians_shape rs ks Hrs).
  induction ks as [|k ks IH]; cbn [map]; constructor; [|exact IH].
  destruct (kpi_scores rs k) as [|q qs] eqn:E; [left; split; reflexivity|].
  right. split; [discriminate|]. intros lo hi Hb. apply median_of_bounds.
  - intros H. pose proof (sort_numbers_length (q :: qs)) as Hl. rewrite H in Hl. discriminate.
  - intros x Hx. apply Hb. apply sort_numbers_In. exact Hx.
Qed.

Lemma summaryMedians_bounds_witness :
  [one_score "A" 4; one_score "B" 2] <> [] /\
  Forall2 (fun kpi m =>
    (kpi_scores [one_score "A" 4; one_score "B" 2] kpi = [] /\ m = 0) \/
    (kpi_scores [one_score "A" 4; one_score "B" 2] kpi <> [] /\
     forall lo hi, (forall q, In q (kpi_scores [one_score "A" 4; one_score "B" 2] kpi) -> lo <= q <= hi) ->
       lo <= m <= hi))
    [kpi1] (summaryMedians (Some [one_score "A" 4; one_score "B" 2]) [kpi1]).
Proof.
  split; [discriminate|]. apply summaryMedians_bounds. discriminate.
Defined.




(** X15. The status colour and the status text use the same bands. *)
Theorem statusColor_matches_text (score : Q) :
  getStatusColor score = status_color (getStatusText score).
Proof.
  unfold getStatusColor, getStatusText.
  destruct (Qle_bool (9#2) score); [reflexivity|].
  destruct (Qle_bool (7#2) score); [reflexivity|].
  destruct (Qle_bool (5#2) score); reflexivity.
Qed.

Lemma set_explanation_ids (kid : Z) (e : string) (ss : list EvaluationSummary) :
  map summary_core (set_explanation kid e ss) = map summary_core ss.
Proof.
  induction ss as [|s ss IH]; cbn; [reflexivity|].
  destruct (Z.eqb (summary_kpiId s) kid); cbn; [reflexivity|]. rewrite IH. reflexivity.
Qed.

Lemma first_index_core (kid : Z) (ss ss' : list EvaluationSummary) :
  map summary_core ss' = map summary_core ss -> first_index kid ss' = first_index kid ss.
Proof.
  revert ss'. induction ss as [|s ss IH]; intros [|s' ss'] H; cbn [map] in H; try discriminate; [reflexivity|].
  assert (Hss : map summary_core ss' = map summary_core ss) by (apply (f_equal (@tl _)) in H; exact H).
  assert (Hs : summary_kpiId s' = summary_kpiId s).
  { apply (f_equal (fun l => option_map (fun x => fst (fst (fst x))) (hd_error l))) in H.
    cbn in H. congruence. }
  cbn [first_index]. rewrite Hs.
  destruct (Z.eqb (summary_kpiId s) kid); [reflexivity|]. rewrite (IH ss' Hss). reflexivity.
Qed.

Lemma first_index_some (kid : Z) (ss : list EvaluationSummary) (i : nat) :
  first_index kid ss = Some i -> exists s, nth_error ss i = Some s /\ summary_kpiId s = kid.
Proof.
  revert i. induction ss as [|s0 ss IH]; intros i H; cbn in H; [discriminate|].
  destruct (Z.eqb_spec (summary_kpiId s0) kid) as [E|E].
  - injection H as <-. exists s0. split; [reflexivity|exact E].
  - destruct (first_index kid ss) as [j|] eqn:Ej; [|discriminate]. injection H as <-.
    apply IH. reflexivity.
Qed.

Lemma first_index_nth (kid : Z) (ss : list EvaluationSummary) (i : nat) (s : EvaluationSummary) :
  nth_error ss i = Some s ->
  (first_index kid ss = Some i <-> kid = summary_kpiId s /\ first_index (summary_kpiId s) ss = Some i).
Proof.
  intros H. split.
  - intros Hf. destruct (first_index_some kid ss i Hf) as [s' [Hs' E]].
    rewrite H in Hs'. injection Hs' as <-. subst kid. split; [reflexivity|exact Hf].
  - intros [-> Hf]. exact Hf.
Qed.

Lemma at_first_iff (kid : Z) (ss : list EvaluationSummary) (i : nat) :
  at_first kid ss i = true <-> first_index kid ss = Some i.
Proof.
  unfold at_first. destruct (first_index kid ss) as [j|]; [|split; discriminate].
  rewrite Nat.eqb_eq. split; [intros ->|intros H; injection H]; auto.
Qed.

Lemma set_explanation_nth (kid : Z) (e : string) (ss : list EvaluationSummary) (i : nat) :
  nth_error (set_explanation kid e ss) i =
  option_map (fun s => if at_first kid ss i then with_explanation s e else s) (nth_error ss i).
Proof.
  unfold at_first. revert i. induction ss as [|s0 ss IH]; intros i; [destruct i; reflexivity|].
  cbn [set_explanation first_index].
  destruct (Z.eqb (summary_kpiId s0) kid).
  - destruct i as [|i]; cbn; [reflexivity|]. destruct (nth_error ss i); reflexivity.
  - destruct i as [|i]; cbn [nth_error].
    + cbn. destruct (first_index kid ss); reflexivity.
    + rewrite IH. destruct (first_index kid ss); reflexivity.
Qed.

Lemma exp_fold_acc (kid : Z) (exps : list ExplanationEntry) (acc : option string) :
  fold_left (exp_step kid) exps acc =
  match fold_left (exp_step kid) exps None with Some e => Some e | None => acc end.
Proof.
  revert acc. induction exps as [|x exps IH]; intros acc; [reflexivity|]. cbn [fold_left].
  rewrite (IH (exp_step kid acc x)), (IH (exp_step kid None x)).
  destruct (fold_left (exp_step kid) exps None); [reflexivity|].
  unfold exp_step. destruct (Z.eqb (exp_kpiId x) kid); reflexivity.
Qed.

Lemma with_explanation_twice (s : EvaluationSummary) (e1 e2 : string) :
  with_explanation (with_explanation s e1) e2 = with_explanation s e2.
Proof. reflexivity. Qed.

Lemma apply_explanations_nth (exps : list ExplanationEntry) (ss : list EvaluationSummary) (i : nat) :
  nth_error (apply_explanations exps ss) i =
  option_map (fun s => if at_first (summary_kpiId s) ss i then
                         match last_explanation (summary_kpiId s) exps with
                         | Some e => with_explanation s e | None => s end
                       else s) (nth_error ss i).
Proof.
  unfold apply_explanations, last_explanation.
  revert ss. induction exps as [|x exps IH]; intros ss.
  - cbn [fold_left]. destruct (nth_error ss i) as [s|]; [|reflexivity]. cbn.
    destruct (at_first (summary_kpiId s) ss i); reflexivity.
  - cbn [fold_left]. rewrite IH. rewrite set_explanation_nth.
    assert (Hat : forall k, at_first k (set_explanation (exp_kpiId x) (exp_explanation x) ss) i =
                            at_first k ss i).
    { intros k. unfold at_first. rewrite (first_index_core k ss); [reflexivity|].
      apply set_explanation_ids. }
    destruct (nth_error ss i) as [s|] eqn:Hs; [|reflexivity]. cbn [option_map]. f_equal.
    rewrite Hat.
    assert (Hid : summary_kpiId (if at_first (exp_kpiId x) ss i then with_explanation s (exp_explanation x) else s)
                  = summary_kpiId s) by (destruct (at_first (exp_kpiId x) ss i); reflexivity).
    rewrite Hid. rewrite (exp_fold_acc _ exps (exp_step _ None x)).
    destruct (at_first (summary_kpiId s) ss i) eqn:Ea.
    + replace (exp_step (summary_kpiId s) None x)
        with (if Z.eqb (exp_kpiId x) (summary_kpiId s) then Some (exp_explanation x) else None)
        by reflexivity.
      destruct (Z.eqb_spec (exp_kpiId x) (summary_kpiId s)) as [E|E].
      * rewrite E, Ea. destruct (fold_left (exp_step (summary_kpiId s)) exps None); reflexivity.
      * assert (Hx : at_first (exp_kpiId x) ss i = false).
        { destruct (at_first (exp_kpiId x) ss i) eqn:Ex; [|reflexivity].
          apply at_first_iff in Ex. apply (first_index_nth _ _ _ _ Hs) in Ex as [Ex _]. contradiction. }
        rewrite Hx. destruct (fold_left (exp_step (summary_kpiId s)) exps None); reflexivity.
    + destruct (at_first (exp_kpiId x) ss i) eqn:Ex; [|reflexivity].
      apply at_first_iff in Ex. apply (first_index_nth _ _ _ _ Hs) in Ex as [_ Ex].
      apply at_first_iff in Ex. congruence.
Qed.

Lemma apply_explanations_core (exps : list ExplanationEntry) (ss : list EvaluationSummary) :
  map summary_core (apply_explanations exps ss) = map summary_core ss.
Proof.
  unfold apply_explanations. revert ss. induction exps as [|x exps IH]; intros ss; [reflexivity|].
  cbn [fold_left]. rewrite IH. apply set_explanation_ids.
Qed.

(** X16. Applying the explanations keeps every summary's KPI id, names and
    average; the summary at position i gets the last explanation given for
    its KPI id when it is the first summary with that id, and is unchanged
    otherwise. *)
Theorem apply_explanations_effect (exps : list ExplanationEntry) (ss : list EvaluationSummary) :
  map summary_core (apply_explanations exps ss) = map summary_core ss /\
  forall i s, nth_error ss i = Some s ->
    (first_index (summary_kpiId s) ss = Some i ->
       nth_error (apply_explanations exps ss) i =
       Some (match last_explanation (summary_kpiId s) exps with
             | Some e => with_explanation s e | None => s end)) /\
    (first_index (summary_kpiId s) ss <> Some i ->
       nth_error (apply_explanations exps ss) i = Some s).
Proof.
  split; [apply apply_explanations_core|]. intros i s Hs.
  rewrite apply_explanations_nth, Hs. cbn [option_map]. split; intros H.
  - apply at_first_iff in H. rewrite H. reflexivity.
  - destruct (at_first (summary_kpiId s) ss i) eqn:E; [|reflexivity].
    apply at_first_iff in E. contradiction.
Qed.

Lemma summary_fallback_core (ss : list EvaluationSummary) :
  map summary_core (summary_fallback ss) = map summary_core ss.
Proof. unfold summary_fallback. rewrite map_map. reflexivity. Qed.

(** X17. Both summary endpoints answer every request body with summaries
    whose KPI ids, names and averages are the ones computed locally: the
    model only supplies explanations. *)
Theorem summary_routes_keep_scores (JSON_parse_array : string -> option (list ExplanationEntry))
  (keySet : bool) (chat : option (option string)) (out : CreateOutcome) (req : SummaryRequest) :
  let ss := summaries (req_results req) (req_kpis req) in
  (exists ss', POST_summary JSON_parse_array keySet chat (Some req) = SummaryJson ss' /\
               map summary_core ss' = map summary_core ss) /\
  (exists ss', POST_summary_part006 JSON_parse_array keySet out (Some req) = SummaryJson ss' /\
               map summary_core ss' = map summary_core ss).
Proof.
  cbn zeta. split.
  - unfold POST_summary. destruct keySet; cbn [negb];
      [|eexists; split; [reflexivity|reflexivity]].
    destruct chat as [content|]; [|eexists; split; [reflexivity|apply summary_fallback_core]].
    destruct (json_array_match _) as [m|]; [|eexists; split; reflexivity].
    destruct (JSON_parse_array m) as [exps|];
      (eexists; split; [reflexivity|]); [apply apply_explanations_core|apply summary_fallback_core].
  - unfold POST_summary_part006. destruct keySet; cbn [negb].
    2:{ eexists; split; [reflexivity|]. rewrite map_map. reflexivity. }
    destruct out as [content|]; [|eexists; split; [reflexivity|apply summary_fallback_core]].
    destruct (responseText content) as [text|]; [|eexists; split; [reflexivity|apply summary_fallback_core]].
    destruct (json_array_match text) as [m|]; [|eexists; split; reflexivity].
    destruct (JSON_parse_array m) as [exps|];
      (eexists; split; [reflexivity|]); [apply apply_explanations_core|apply summary_fallback_core].
Qed.
